(** * LoRaWAN field tester: the uplink/downlink payload pipeline of [app/server.py]

    A shallow embedding of [process], [parser_tts3], [parser_cs34] and
    [mqtt_on_message], with the Python features they rely on written out:
    exceptions (a small error monad), [bytes] indexing, the int/float
    numeric tower, [dict]/[list]/[str] membership and subscripting on the
    values [json.loads] returns, [str.replace], [min]/[max]/[round].

    Binary64 values are Rocq's primitive floats, so float expressions of the
    source ([data[8]/10], [hdop <= 2], the coordinates) compute here exactly
    as they do in CPython. *)

From Stdlib Require Import ZArith List String Ascii Bool Lia Floats DecimalString.
From Stdlib Require Import Strings.Byte.
Import ListNotations.
Set Warnings "-register-all".
Open Scope string_scope.
Open Scope Z_scope.

(** ** Exceptions *)

Inductive exn : Set :=
| IndexError | KeyError | TypeError | AttributeError
| ValueError | OverflowError | BinasciiError | UnicodeDecodeError.

Inductive result (A : Type) : Type :=
| Ok (a : A)
| Raise (e : exn).
Arguments Ok {A} a.
Arguments Raise {A} e.

Definition bind {A B : Type} (c : result A) (k : A -> result B) : result B :=
  match c with
  | Ok a => k a
  | Raise e => Raise e
  end.

Notation "x <- c ;; k" := (bind c (fun x => k))
  (at level 61, c at next level, right associativity).

(** ** Numbers

    [float_of_Z] is CPython's int-to-float conversion (correctly rounded, ties
    to even); it overflows to an infinity where CPython raises
    [OverflowError], which [py_float] reports. *)

Definition float_of_Z (z : Z) : float :=
  SF2Prim (binary_normalize prec emax z 0 false).

Definition py_float (z : Z) : result float :=
  let f := float_of_Z z in
  if is_infinity f then Raise OverflowError else Ok f.

(** [int(f)]: truncation toward zero; [ValueError] on a NaN, [OverflowError]
    on an infinity. *)
Definition py_int (f : float) : result Z :=
  match Prim2SF f with
  | S754_zero _ => Ok 0
  | S754_infinity _ => Raise OverflowError
  | S754_nan => Raise ValueError
  | S754_finite s m e =>
      let a := if 0 <=? e then Z.pos m * 2 ^ e else Z.pos m / 2 ^ (- e) in
      Ok (if s then - a else a)
  end.

(** Round half to even of the rational [n / d], [0 < d]. *)
Definition round_half_even (n d : Z) : Z :=
  let q := n / d in
  let r := n mod d in
  if 2 * r <? d then q
  else if d <? 2 * r then q + 1
  else if Z.even q then q else q + 1.

(** [round(f)] with one argument on a float: the nearest integer, a tie going
    to the even one (Python 3). *)
Definition py_round (f : float) : result Z :=
  match Prim2SF f with
  | S754_zero _ => Ok 0
  | S754_infinity _ => Raise OverflowError
  | S754_nan => Raise ValueError
  | S754_finite s m e =>
      let a := if 0 <=? e then Z.pos m * 2 ^ e
               else round_half_even (Z.pos m) (2 ^ (- e)) in
      Ok (if s then - a else a)
  end.

(** A Python number: an [int] (a [bool] counts as the int 0 or 1) or a
    [float]. *)
Inductive pynum : Set :=
| PInt (z : Z)
| PFloat (f : float).

(** Exact comparison of an int with a float, as CPython does it. *)
Definition Z_ltb_float (z : Z) (f : float) : bool :=
  match Prim2SF f with
  | S754_zero _ => z <? 0
  | S754_infinity s => negb s
  | S754_nan => false
  | S754_finite s m e =>
      let v := if s then Z.neg m else Z.pos m in
      if 0 <=? e then z <? v * 2 ^ e else z * 2 ^ (- e) <? v
  end.

Definition float_ltb_Z (f : float) (z : Z) : bool :=
  match Prim2SF f with
  | S754_zero _ => 0 <? z
  | S754_infinity s => s
  | S754_nan => false
  | S754_finite s m e =>
      let v := if s then Z.neg m else Z.pos m in
      if 0 <=? e then v * 2 ^ e <? z else v <? z * 2 ^ (- e)
  end.

Definition py_lt (a b : pynum) : bool :=
  match a, b with
  | PInt x, PInt y => x <? y
  | PInt x, PFloat g => Z_ltb_float x g
  | PFloat f, PInt y => float_ltb_Z f y
  | PFloat f, PFloat g => PrimFloat.ltb f g
  end.

(** [min(a, b)] and [max(a, b)] keep the first argument unless the second is
    strictly smaller (larger). *)
Definition py_min (a b : pynum) : pynum := if py_lt b a then b else a.
Definition py_max (a b : pynum) : pynum := if py_lt a b then b else a.

(** [x == n] for an int literal [n]. *)
Definition py_eq_int (x : pynum) (n : Z) : bool :=
  match x with
  | PInt z => z =? n
  | PFloat f => negb (Z_ltb_float n f) && negb (float_ltb_Z f n)
                && negb (is_nan f)
  end.

(** [x + n] for an int literal [n]. *)
Definition py_add_int (x : pynum) (n : Z) : pynum :=
  match x with
  | PInt z => PInt (z + n)
  | PFloat f => PFloat (PrimFloat.add f (float_of_Z n))
  end.

(** [int(x)]. *)
Definition py_int_of (x : pynum) : result Z :=
  match x with
  | PInt z => Ok z
  | PFloat f => py_int f
  end.

(** [float(x)], the implicit conversion of mixed arithmetic. *)
Definition py_float_of (x : pynum) : result float :=
  match x with
  | PInt z => py_float z
  | PFloat f => Ok f
  end.

(** [f % 256] on a float: C's [fmod] (exact), moved into [[0, 256)] when
    negative; the result of a zero remainder is [+0.0]. *)
Definition py_float_mod256 (f : float) : float :=
  match Prim2SF f with
  | S754_zero _ => 0%float
  | S754_finite s m e =>
      let r := if 0 <=? e then binary_normalize prec emax ((Z.pos m * 2 ^ e) mod 256) 0 false
               else binary_normalize prec emax (Z.pos m mod (256 * 2 ^ (- e))) e false in
      let md := SF2Prim r in
      if PrimFloat.eqb md 0%float then 0%float
      else if s then PrimFloat.add (PrimFloat.opp md) 256%float else md
  | _ => nan
  end.

(** [x % 256]. *)
Definition py_mod256 (x : pynum) : pynum :=
  match x with
  | PInt z => PInt (z mod 256)
  | PFloat f => PFloat (py_float_mod256 f)
  end.

(** ** Bytes *)

Definition byte_val (b : byte) : Z := Z.of_N (Byte.to_N b).

(** [data[i]] on a [bytes] object. *)
Definition getitem (data : list byte) (i : nat) : result Z :=
  match nth_error data i with
  | Some b => Ok (byte_val b)
  | None => Raise IndexError
  end.

(** [bytes(buffer)]: every item must be an int of [range(0, 256)]. *)
Fixpoint py_bytes (buffer : list pynum) : result (list byte) :=
  match buffer with
  | [] => Ok []
  | PFloat _ :: _ => Raise TypeError
  | PInt z :: rest =>
      if (0 <=? z) && (z <? 256) then
        match Byte.of_N (Z.to_N z) with
        | Some b => bs <- py_bytes rest ;; Ok (b :: bs)
        | None => Raise ValueError
        end
      else Raise ValueError
  end.

(** ** Strings *)

(** [sub in s] on two [str]. *)
Fixpoint str_contains (sub s : string) : bool :=
  String.prefix sub s ||
  match s with
  | EmptyString => false
  | String _ s' => str_contains sub s'
  end.

(** [s.replace(old, new)] for a non-empty [old]: every occurrence, scanning
    from the left, occurrences not overlapping.  [skip] counts the characters
    of a matched [old] still to be dropped. *)
Fixpoint replace_from (old new : string) (skip : nat) (s : string) : string :=
  match s with
  | EmptyString => EmptyString
  | String c s' =>
      match skip with
      | S k => replace_from old new k s'
      | O =>
          if String.prefix old s
          then new ++ replace_from old new (Nat.pred (String.length old)) s'
          else String c (replace_from old new O s')
      end
  end.

Definition str_replace (s old new : string) : string := replace_from old new O s.

(** ** The values [json.loads] returns

    A [dict] is the list of its items in order; [json.loads] leaves one item
    per key. *)

Inductive json : Type :=
| JNull
| JBool (b : bool)
| JInt (z : Z)
| JFloat (f : float)
| JStr (s : string)
| JArr (items : list json)
| JObj (members : list (string * json)).

Fixpoint lookup (k : string) (d : list (string * json)) : option json :=
  match d with
  | [] => None
  | (k', v) :: rest => if String.eqb k k' then Some v else lookup k rest
  end.

Definition is_str (k : string) (v : json) : bool :=
  match v with
  | JStr s => String.eqb k s
  | _ => false
  end.

(** [k in v] for a [str] key [k]. *)
Definition py_in (k : string) (v : json) : result bool :=
  match v with
  | JObj d => Ok (match lookup k d with Some _ => true | None => false end)
  | JArr l => Ok (existsb (is_str k) l)
  | JStr s => Ok (str_contains k s)
  | _ => Raise TypeError
  end.

(** [v[k]] for a [str] key [k]. *)
Definition py_item (v : json) (k : string) : result json :=
  match v with
  | JObj d =>
      match lookup k d with
      | Some x => Ok x
      | None => Raise KeyError
      end
  | _ => Raise TypeError
  end.

(** [v.get(k, default)]: only a [dict] has the method. *)
Definition py_get (v : json) (k : string) (default : json) : result json :=
  match v with
  | JObj d =>
      match lookup k d with
      | Some x => Ok x
      | None => Ok default
      end
  | _ => Raise AttributeError
  end.

(** The number a value is, if it is one. *)
Definition as_num (v : json) : option pynum :=
  match v with
  | JInt z => Some (PInt z)
  | JBool b => Some (PInt (if b then 1 else 0))
  | JFloat f => Some (PFloat f)
  | _ => None
  end.

(** A value used as an operand of arithmetic or of an ordering: [TypeError]
    unless it is a number. *)
Definition num_of (v : json) : result pynum :=
  match as_num v with
  | Some x => Ok x
  | None => Raise TypeError
  end.

Definition json_of_num (x : pynum) : json :=
  match x with
  | PInt z => JInt z
  | PFloat f => JFloat f
  end.

(** [v == n] for an int literal [n]; [==] never raises. *)
Definition json_eq_int (v : json) (n : Z) : bool :=
  match as_num v with
  | Some x => py_eq_int x n
  | None => false
  end.

Definition is_None (v : json) : bool :=
  match v with
  | JNull => true
  | _ => false
  end.

(** [len(v)] and the items [for ... in v] visits: the elements of a list, the
    keys of a dict, the characters of a str. *)
Definition py_iter (v : json) : result (list json) :=
  match v with
  | JArr l => Ok l
  | JObj d => Ok (map (fun kv => JStr (fst kv)) d)
  | JStr s => Ok (map (fun c => JStr (String c EmptyString)) (list_ascii_of_string s))
  | _ => Raise TypeError
  end.

(** ** The library functions the pipeline calls

    [json.loads] ([None] when it raises), [json.dumps], [base64.b64decode]
    (applied to whatever the envelope holds), [base64.b64encode] and the
    [math] functions, which raise [ValueError] outside their domain. *)

Class PyLib : Type := {
  json_loads : string -> option json;
  json_dumps : json -> string;
  b64decode : json -> result (list byte);
  b64encode : list byte -> string;
  math_sin : float -> result float;
  math_cos : float -> result float;
  math_acos : float -> result float
}.

(** ** Configuration: the one setting [process] reads *)

Record Config : Set := { publish : bool }.

(** ** The data the pipeline builds ([output] of [process]) *)

(** The keys present only with a valid fix. *)
Record Position : Set := {
  latitude : float;
  longitude : float;
  altitude : Z;
  accuracy : float
}.

Record GpsFix : Set := {
  hdop : float;
  sats : Z;
  has_gps : bool;
  position : option Position
}.

(** [min_distance] starts as the float [1e6] with a fix; it only meets ints
    in [min] and a float divisor in the encoder, where [1e6] and the int
    [1000000] behave alike, so distances are integers here.  With a fix the
    value 1,000,000 always stands for that float ([min] gives up its first
    argument only to a smaller one); [measurements] publishes it as such. *)
Record Aggregate : Set := {
  num_gateways : Z;
  min_distance : Z;
  max_distance : Z;
  min_rssi : pynum;
  max_rssi : pynum
}.

Record Output : Set := {
  fix_ : GpsFix;
  agg : Aggregate;
  buffer : option (list pynum)
}.

Definition EARTH_RADIUS : Z := 6371000.
Definition MAX_DISTANCE : Z := 1000000.
Definition MIN_DISTANCE : Z := 0.
Definition MAX_RSSI : Z := 200.
Definition MIN_RSSI : Z := -200.

(** [min(upper, max(lower, value))] *)
Definition constrain (value lower upper : Z) : Z :=
  Z.min upper (Z.max lower value).

(** [a / b] on two ints below [2^53]: the quotient of their (exact)
    conversions, correctly rounded. *)
Definition int_truediv (a b : Z) : float :=
  PrimFloat.div (float_of_Z a) (float_of_Z b).

(** [int(round(x / d))] for an int [x] and a float literal [d] holding the
    integer 10 or 250: the float quotient is the double nearest to [x / d],
    and [round] sends it to the nearest integer, ties to even.  A
    half-integer below [2^52] is a double, and every other quotient [x / d]
    is at least [1 / d] away from one, which exceeds the rounding error of
    the division while [|x / d| < 2^44]; there the result is the exact
    quotient rounded half to even.  Beyond, the double still lies within one
    unit of the exact quotient, far above the bound [constrain] then applies.
    Distances are at most half the Earth's circumference (or the initial
    [1e6]), so the conversion of [x] to a double never overflows.
    [FloatModel] below recomputes the quotient on binary64. *)
Definition round_div (x d : Z) : Z := round_half_even x d.

Section Pipeline.
Context {L : PyLib}.

(** *** Geodesic distance (lines 126-144) *)

Definition math_pi : float := 0x1.921fb54442d18p+1%float.

Definition degreesToRadians (degrees : pynum) : result float :=
  d <- py_float_of degrees ;;
  Ok (PrimFloat.mul d (PrimFloat.div math_pi 180%float)).

(** [location1] is [output] (its coordinates are floats), [location2] the
    gateway's [location] dict, whose coordinates are any JSON value but
    [None]. *)
Definition angularDistance (pos : Position) (lat2 lon2 : json) : result float :=
  lat1r <- degreesToRadians (PFloat (latitude pos)) ;;
  n2 <- num_of lat2 ;;
  lat2r <- degreesToRadians n2 ;;
  s1 <- math_sin lat1r ;;
  s2 <- math_sin lat2r ;;
  c1 <- math_cos lat1r ;;
  c2 <- math_cos lat2r ;;
  l2 <- num_of lon2 ;;
  l2f <- py_float_of l2 ;;
  dl <- degreesToRadians (PFloat (PrimFloat.abs (PrimFloat.sub (longitude pos) l2f))) ;;
  c3 <- math_cos dl ;;
  math_acos (PrimFloat.add (PrimFloat.mul s1 s2)
                           (PrimFloat.mul (PrimFloat.mul c1 c2) c3)).

Definition circleDistance (pos : Position) (lat2 lon2 : json) : result float :=
  a <- angularDistance pos lat2 lon2 ;;
  Ok (PrimFloat.mul (float_of_Z EARTH_RADIUS) a).

(** *** The uplink payload (lines 158-172) *)

Definition decode (data : list byte) : result GpsFix :=
  b8 <- getitem data 8 ;;
  let hdop := int_truediv b8 10 in
  b9 <- getitem data 9 ;;
  let has_gps := PrimFloat.leb hdop 2%float && (5 <=? b9) in
  if has_gps then
    b0 <- getitem data 0 ;;
    let lonSign := if Z.land (Z.shiftr b0 7) 1 =? 0 then 1 else -1 in
    let latSign := if Z.land (Z.shiftr b0 6) 1 =? 0 then 1 else -1 in
    b1 <- getitem data 1 ;;
    b2 <- getitem data 2 ;;
    b3 <- getitem data 3 ;;
    let encLat := Z.shiftl (Z.land b0 63) 17 + Z.shiftl b1 9
                  + Z.shiftl b2 1 + Z.shiftr b3 7 in
    b4 <- getitem data 4 ;;
    b5 <- getitem data 5 ;;
    let encLon := Z.shiftl (Z.land b3 127) 16 + Z.shiftl b4 8 + b5 in
    b6 <- getitem data 6 ;;
    b7 <- getitem data 7 ;;
    Ok {| hdop := hdop; sats := b9; has_gps := true;
          position := Some {|
            latitude := int_truediv (latSign * (encLat * 108 + 53)) 10000000;
            longitude := int_truediv (lonSign * (encLon * 215 + 107)) 10000000;
            altitude := (Z.shiftl b6 8 + b7) - 1000;
            accuracy := PrimFloat.div
                          (PrimFloat.add (PrimFloat.mul hdop 5%float) 5%float)
                          10%float |} |}
  else
    Ok {| hdop := hdop; sats := b9; has_gps := false; position := None |}.

(** *** Gateway statistics (lines 175-192) *)

Definition aggregate_init (gps : GpsFix) (n : Z) : Aggregate :=
  {| num_gateways := n;
     min_distance := if has_gps gps then MAX_DISTANCE else MIN_DISTANCE;
     max_distance := MIN_DISTANCE;
     min_rssi := PInt MAX_RSSI;
     max_rssi := PInt MIN_RSSI |}.

(** One turn of the loop over [gateways]. *)
Definition aggregate_step (gps : GpsFix) (a : Aggregate) (gateway : json)
  : result Aggregate :=
  r1 <- py_get gateway "rssi" (JInt MAX_RSSI) ;;
  n1 <- num_of r1 ;;
  let lo := py_min (min_rssi a) n1 in
  r2 <- py_get gateway "rssi" (JInt MIN_RSSI) ;;
  n2 <- num_of r2 ;;
  let hi := py_max (max_rssi a) n2 in
  let a' := {| num_gateways := num_gateways a;
               min_distance := min_distance a; max_distance := max_distance a;
               min_rssi := lo; max_rssi := hi |} in
  if has_gps gps then
    loc <- py_get gateway "location" (JObj []) ;;
    lat <- py_get loc "latitude" JNull ;;
    lon <- py_get loc "longitude" JNull ;;
    if negb (is_None lat) && negb (is_None lon) then
      match position gps with
      | None => Raise TypeError
      | Some pos =>
          d <- circleDistance pos lat lon ;;
          distance <- py_int d ;;
          Ok {| num_gateways := num_gateways a;
                min_distance := Z.min (min_distance a) distance;
                max_distance := Z.max (max_distance a) distance;
                min_rssi := lo; max_rssi := hi |}
      end
    else Ok a'
  else Ok a'.

Fixpoint aggregate_loop (gps : GpsFix) (a : Aggregate) (gateways : list json)
  : result Aggregate :=
  match gateways with
  | [] => Ok a
  | g :: rest => a' <- aggregate_step gps a g ;; aggregate_loop gps a' rest
  end.

Definition aggregate (gps : GpsFix) (gateways : json) : result Aggregate :=
  items <- py_iter gateways ;;
  aggregate_loop gps (aggregate_init gps (Z.of_nat (List.length items))) items.

(** *** Telemetry (lines 195-206): the measurements handed to [publish], which
    skips a [None] value.  With a fix a minimum distance of 1,000,000 is the
    float [1e6] it started as ([min] keeps it against any int that is not
    smaller); every other distance is an int.  The sink is an outside
    service; sending to it does not change what [process] returns. *)

Definition measurements (gps : GpsFix) (a : Aggregate) : list (string * pynum) :=
  [("gps.hdop", PFloat (hdop gps)); ("gps.sats", PInt (sats gps))]
  ++ match position gps with
     | Some p => [("gps.latitude", PFloat (latitude p));
                  ("gps.longitude", PFloat (longitude p));
                  ("gps.altitude", PInt (altitude p));
                  ("gps.accuracy", PFloat (accuracy p))]
     | None => []
     end
  ++ [("gateway.min_distance",
       if has_gps gps && (min_distance a =? MAX_DISTANCE)
       then PFloat 1000000%float else PInt (min_distance a));
      ("gateway.max_distance", PInt (max_distance a));
      ("gateway.min_rssi", min_rssi a);
      ("gateway.max_rssi", max_rssi a);
      ("gateway.num_gateways", PInt (num_gateways a))].

Definition telemetry (config : Config) (gps : GpsFix) (a : Aggregate)
  : list (string * pynum) :=
  if publish config then measurements gps a else [].

(** *** The response buffer (lines 208-231) *)

(** [int(x + 200) % 256] *)
Definition rssi_byte (x : pynum) : result pynum :=
  v <- py_int_of (py_add_int x 200) ;;
  Ok (PInt (v mod 256)).

(** [int(v / 256) % 256] and [v % 256] for a 16-bit [v]: dividing by 256 is
    exact in binary64. *)
Definition hi_byte (v : Z) : Z := Z.quot v 256 mod 256.
Definition lo_byte (v : Z) : Z := v mod 256.

(** [sequence_id % 256] needs a number on the left: [None], a list or a
    dict raise [TypeError].  On a [str] the operator is string formatting,
    whose outcome (a [str] in the buffer for '%d', [TypeError] or
    [ValueError] for other texts) is not modelled: a [str] frame counter is
    reported as [TypeError] here, and no property below rests on that
    case. *)
Definition encode (hasFix : bool) (a : Aggregate) (port : json)
  (sequence_id : json) : result (option (list pynum)) :=
  if json_eq_int port 1 then
    let min_d := if hasFix then constrain (round_div (min_distance a) 250) 1 128 else 0 in
    let max_d := if hasFix then constrain (round_div (max_distance a) 250) 1 128 else 0 in
    seq <- num_of sequence_id ;;
    lo <- rssi_byte (min_rssi a) ;;
    hi <- rssi_byte (max_rssi a) ;;
    Ok (Some [py_mod256 seq; lo; hi; PInt min_d; PInt max_d;
              PInt (num_gateways a mod 256)])
  else if json_eq_int port 11 then
    let min_d := if hasFix then constrain (round_div (min_distance a) 10) 1 65535 else 0 in
    let max_d := if hasFix then constrain (round_div (max_distance a) 10) 1 65535 else 0 in
    seq <- num_of sequence_id ;;
    lo <- rssi_byte (min_rssi a) ;;
    hi <- rssi_byte (max_rssi a) ;;
    Ok (Some [py_mod256 seq; lo; hi;
              PInt (hi_byte min_d); PInt (lo_byte min_d);
              PInt (hi_byte max_d); PInt (lo_byte max_d);
              PInt (num_gateways a mod 256)])
  else Ok None.

(** *** [process] (lines 154-233) *)

Definition process (data : list byte) (port sequence_id gateways : json)
  (config : Config) : result Output :=
  gps <- decode data ;;
  a <- aggregate gps gateways ;;
  b <- encode (has_gps gps) a port sequence_id ;;
  Ok {| fix_ := gps; agg := a; buffer := b |}.

End Pipeline.

(** ** The envelope parsers

    A parser returns [[False, False]] ([NoDownlink]) or [[topic, payload]]
    ([Downlink]); an exception it does not catch leaves it ([Raise]). *)

Inductive reply : Set :=
| NoDownlink
| Downlink (topic payload : string).

Section Parsers.
Context {L : PyLib}.

Definition unsupported (port : json) : bool :=
  negb (json_eq_int port 1) && negb (json_eq_int port 11).

(** [data['buffer']] then [bytes(...)] then [b64encode]: the key is missing
    when [process] built no buffer. *)
Definition encoded_buffer (out : Output) : result json :=
  match buffer out with
  | None => Raise KeyError
  | Some b => bs <- py_bytes b ;; Ok (JStr (b64encode bs))
  end.

(** [port + 1] *)
Definition next_port (port : json) : result json :=
  p <- num_of port ;;
  Ok (json_of_num (py_add_int p 1)).

(** The Things Stack v3 (lines 235-278).  [process] returns a dict that is
    never empty, so the test [if not data] after it never fires and is left
    out. *)
Definition parser_tts3 (config : Config) (topic payload : string) : result reply :=
  match json_loads payload with
  | None => Ok NoDownlink
  | Some payload =>
      present <- py_in "uplink_message" payload ;;
      if negb present then Ok NoDownlink else
      um <- py_item payload "uplink_message" ;;
      port <- py_item um "f_port" ;;
      if unsupported port then Ok NoDownlink else
      sequence_id <- py_item um "f_cnt" ;;
      gateways <- py_item um "rx_metadata" ;;
      frm <- py_item um "frm_payload" ;;
      data <- b64decode frm ;;
      out <- process data port sequence_id gateways config ;;
      let topic := str_replace topic "/up" "/down/replace" in
      f_port <- next_port port ;;
      frm_payload <- encoded_buffer out ;;
      let downlink :=
        JObj [("downlinks",
               JArr [JObj [("f_port", f_port);
                           ("frm_payload", frm_payload);
                           ("priority", JStr "HIGH")]])] in
      Ok (Downlink topic (json_dumps downlink))
  end.

(** ChirpStack v3 and v4 (lines 280-323). *)
Definition parser_cs34 (config : Config) (topic payload : string) : result reply :=
  match json_loads payload with
  | None => Ok NoDownlink
  | Some payload =>
      v4 <- py_in "deviceInfo" payload ;;
      port <- py_get payload "fPort" (JInt 0) ;;
      if unsupported port then Ok NoDownlink else
      sequence_id <- py_item payload "fCnt" ;;
      gateways <- py_item payload "rxInfo" ;;
      d <- py_item payload "data" ;;
      data <- b64decode d ;;
      out <- process data port sequence_id gateways config ;;
      let topic := str_replace topic "/event/up" "/command/down" in
      fPort <- next_port port ;;
      data64 <- encoded_buffer out ;;
      let downlink := [("confirmed", JBool false); ("fPort", fPort); ("data", data64)] in
      if (v4 : bool) then
        info <- py_item payload "deviceInfo" ;;
        devEui <- py_item info "devEui" ;;
        Ok (Downlink topic (json_dumps (JObj (downlink ++ [("devEui", devEui)]))))
      else
        Ok (Downlink topic (json_dumps (JObj downlink)))
  end.

(** ** The message handler (lines 335-355) *)

Inductive parser_type : Set := TheThingsStack_v3 | ChirpStack_v3plus.

Definition parser (t : parser_type) : Config -> string -> string -> result reply :=
  match t with
  | TheThingsStack_v3 => parser_tts3
  | ChirpStack_v3plus => parser_cs34
  end.

(** What [mqtt_on_message] hands to [mqtt_client.publish] once the body of
    the message is decoded (lines 350-355): nothing for [[False, False]] (or
    an empty topic), the pair otherwise.  Nothing in it catches an exception
    of the parser.  The decoding of line 349 is in [mqtt_on_message_bytes]
    below. *)
Definition mqtt_on_message (t : parser_type) (config : Config)
  (topic payload : string) : result (option (string * string)) :=
  r <- parser t config topic payload ;;
  match r with
  | NoDownlink => Ok None
  | Downlink topic' payload' =>
      if String.eqb topic' "" then Ok None else Ok (Some (topic', payload'))
  end.

End Parsers.

(** ** Reading a response buffer back *)

(** The int at index [i] of a buffer, [-1] when there is none. *)
Definition field (buf : list pynum) (i : nat) : Z :=
  match nth_error buf i with
  | Some (PInt z) => z
  | _ => -1
  end.

(** The 16-bit value whose high byte is at index [i] (big-endian). *)
Definition field16 (buf : list pynum) (i : nat) : Z :=
  field buf i * 256 + field buf (S i).

Definition is_byte (x : pynum) : Prop :=
  exists z, x = PInt z /\ 0 <= z <= 255.

(** ** Rounding as the specification words it *)

(** Round half away from zero of [n / d], [0 < d]. *)
Definition round_half_away (n d : Z) : Z :=
  if 0 <=? n then (2 * n + d) / (2 * d) else - ((2 * (- n) + d) / (2 * d)).

(** An aggregate whose signal bounds are ints, as the gateways of either
    network server report them. *)
Definition int_signals (a : Aggregate) : Prop :=
  exists lo hi, min_rssi a = PInt lo /\ max_rssi a = PInt hi.

(** ** Example values *)

Definition aggregate_300 : Aggregate :=
  {| num_gateways := 3; min_distance := 500; max_distance := 1000;
     min_rssi := PInt (-80); max_rssi := PInt (-60) |}.

Definition aggregate_12345 : Aggregate :=
  {| num_gateways := 1; min_distance := 12345; max_distance := 12345;
     min_rssi := PInt (-80); max_rssi := PInt (-80) |}.

Definition aggregate_sentinels : Aggregate :=
  {| num_gateways := 0; min_distance := 1000000; max_distance := 0;
     min_rssi := PInt 200; max_rssi := PInt (-200) |}.

Definition payload_fix : list byte :=
  [x12; x34; x56; x78; x9a; xbc; x04; x4c; x0a; x07]%byte.

(** [data[i]] of a payload known to be long enough. *)
Definition byte_at (data : list byte) (i : nat) : Z := byte_val (nth i data x00%byte).

(** The fields [decode] reads from a 10-byte payload, in closed form. *)
Definition fix_of (data : list byte) : GpsFix :=
  let hdop := int_truediv (byte_at data 8) 10 in
  let b0 := byte_at data 0 in
  let b3 := byte_at data 3 in
  let lonSign := if Z.land (Z.shiftr b0 7) 1 =? 0 then 1 else -1 in
  let latSign := if Z.land (Z.shiftr b0 6) 1 =? 0 then 1 else -1 in
  let encLat := Z.shiftl (Z.land b0 63) 17 + Z.shiftl (byte_at data 1) 9
                + Z.shiftl (byte_at data 2) 1 + Z.shiftr b3 7 in
  let encLon := Z.shiftl (Z.land b3 127) 16 + Z.shiftl (byte_at data 4) 8
                + byte_at data 5 in
  if PrimFloat.leb hdop 2%float && (5 <=? byte_at data 9) then
    {| hdop := hdop; sats := byte_at data 9; has_gps := true;
       position := Some {|
         latitude := int_truediv (latSign * (encLat * 108 + 53)) 10000000;
         longitude := int_truediv (lonSign * (encLon * 215 + 107)) 10000000;
         altitude := (Z.shiftl (byte_at data 6) 8 + byte_at data 7) - 1000;
         accuracy := PrimFloat.div
                       (PrimFloat.add (PrimFloat.mul hdop 5%float) 5%float)
                       10%float |} |}
  else {| hdop := hdop; sats := byte_at data 9; has_gps := false; position := None |}.

(** The envelope fields of a well-formed uplink, for either variant. *)
Definition tts3_fields (doc port sequence_id gateways frm : json) : Prop :=
  exists d um,
    doc = JObj d /\ lookup "uplink_message" d = Some (JObj um) /\
    lookup "f_port" um = Some port /\ lookup "f_cnt" um = Some sequence_id /\
    lookup "rx_metadata" um = Some gateways /\ lookup "frm_payload" um = Some frm.

Definition cs34_fields (doc port sequence_id gateways data64 : json) : Prop :=
  exists d,
    doc = JObj d /\
    lookup "fPort" d = Some port /\ lookup "fCnt" d = Some sequence_id /\
    lookup "rxInfo" d = Some gateways /\ lookup "data" d = Some data64.

(** ** Topic rewriting as the specification words it *)

(** Whether an occurrence of [old] in [p ++ s] starts inside [p]. *)
Fixpoint starts_within (old p s : string) : bool :=
  match p with
  | EmptyString => false
  | String _ p' => String.prefix old (p ++ s) || starts_within old p' s
  end.

(** The specification's reading: only a trailing [old] is replaced. *)
Definition replace_trailing (s old new : string) : string :=
  let n := (String.length s - String.length old)%nat in
  if (String.length old <=? String.length s)%nat
     && String.eqb (substring n (String.length old) s) old
  then substring 0 n s ++ new
  else s.

(** ** A concrete library for the examples

    A base64 codec (exact on canonically padded input), a renderer of JSON
    values in the layout of [json.dumps] (exact on null, booleans, ints and
    strings with nothing to escape) and, as [json.loads], its inverse on the
    example documents below.  The examples carry no gateway location, so the
    [math] functions are never reached and are left undefined. *)

Module Fixture.

Definition alphabet : string :=
  "ABCDEFGHIJKLMNOPQRSTUVWXYZabcdefghijklmnopqrstuvwxyz0123456789+/".

Definition sextet_char (n : Z) : ascii :=
  match String.get (Z.to_nat n) alphabet with
  | Some c => c
  | None => "="%char
  end.

Fixpoint index_from (c : ascii) (s : string) (i : Z) : option Z :=
  match s with
  | EmptyString => None
  | String c' s' => if Ascii.eqb c c' then Some i else index_from c s' (i + 1)
  end.

Definition char_sextet (c : ascii) : option Z := index_from c alphabet 0.

Definition chars (l : list ascii) : string := string_of_list_ascii l.

(** Standard base64 of a byte string, with padding. *)
Fixpoint encode64 (bs : list Z) : string :=
  match bs with
  | [] => ""
  | [a] =>
      chars [sextet_char (a / 4); sextet_char (a mod 4 * 16); "="%char; "="%char]
  | [a; b] =>
      chars [sextet_char (a / 4); sextet_char (a mod 4 * 16 + b / 16);
             sextet_char (b mod 16 * 4); "="%char]
  | a :: b :: c :: rest =>
      chars [sextet_char (a / 4); sextet_char (a mod 4 * 16 + b / 16);
             sextet_char (b mod 16 * 4 + c / 64); sextet_char (c mod 64)]
      ++ encode64 rest
  end.

Definition to_byte (z : Z) : byte :=
  match Byte.of_N (Z.to_N z) with
  | Some b => b
  | None => x00%byte
  end.

(** Its inverse on canonical input; anything else is rejected. *)
Fixpoint decode64 (cs : list ascii) : option (list Z) :=
  match cs with
  | [] => Some []
  | a :: b :: c :: d :: rest =>
      match char_sextet a, char_sextet b with
      | Some x, Some y =>
          if Ascii.eqb c "="%char then
            if Ascii.eqb d "="%char && match rest with [] => true | _ => false end
            then Some [x * 4 + y / 16] else None
          else
            match char_sextet c with
            | None => None
            | Some z =>
                if Ascii.eqb d "="%char then
                  match rest with
                  | [] => Some [x * 4 + y / 16; y mod 16 * 16 + z / 4]
                  | _ => None
                  end
                else
                  match char_sextet d, decode64 rest with
                  | Some w, Some tl =>
                      Some (x * 4 + y / 16 :: y mod 16 * 16 + z / 4 :: z mod 4 * 64 + w :: tl)
                  | _, _ => None
                  end
            end
      | _, _ => None
      end
  | _ => None
  end.

Definition b64decode (v : json) : result (list byte) :=
  match v with
  | JStr s =>
      match decode64 (list_ascii_of_string s) with
      | Some zs => Ok (map to_byte zs)
      | None => Raise BinasciiError
      end
  | _ => Raise TypeError
  end.

Definition b64encode (bs : list byte) : string := encode64 (map byte_val bs).

Definition dquote : string := String (Ascii.ascii_of_nat 34) EmptyString.

Definition quoted (s : string) : string := dquote ++ s ++ dquote.

Definition decimal (z : Z) : string := DecimalString.NilZero.string_of_int (Z.to_int z).

Fixpoint dumps (v : json) : string :=
  match v with
  | JNull => "null"
  | JBool true => "true"
  | JBool false => "false"
  | JInt z => decimal z
  | JFloat _ => "<float>"
  | JStr s => quoted s
  | JArr l =>
      "[" ++ (fix items (l : list json) : string :=
                match l with
                | [] => ""
                | [x] => dumps x
                | x :: rest => dumps x ++ ", " ++ items rest
                end) l ++ "]"
  | JObj d =>
      "{" ++ (fix members (d : list (string * json)) : string :=
                match d with
                | [] => ""
                | [(k, x)] => quoted k ++ ": " ++ dumps x
                | (k, x) :: rest => quoted k ++ ": " ++ dumps x ++ ", " ++ members rest
                end) d ++ "}"
  end.

Definition loads_from (documents : list json) (s : string) : option json :=
  List.find (fun d => String.eqb s (dumps d)) documents.

End Fixture.

(** *** Example envelopes *)

Definition gateways_no_location : json :=
  JArr [JObj [("rssi", JInt (-80))]; JObj [("rssi", JInt (-60))]].

(** TTS3, port 1, frame 300, the payload [payload_fix]. *)
Definition tts3_uplink : json :=
  JObj [("uplink_message",
         JObj [("f_port", JInt 1); ("f_cnt", JInt 300);
               ("rx_metadata", gateways_no_location);
               ("frm_payload", JStr "EjRWeJq8BEwKBw==")])].

(** The same with a 3-byte payload. *)
Definition tts3_short : json :=
  JObj [("uplink_message",
         JObj [("f_port", JInt 1); ("f_cnt", JInt 300);
               ("rx_metadata", gateways_no_location);
               ("frm_payload", JStr "AAAA")])].

(** An uplink whose frame counter is left out. *)
Definition tts3_no_f_cnt : json :=
  JObj [("uplink_message",
         JObj [("f_port", JInt 1);
               ("rx_metadata", gateways_no_location);
               ("frm_payload", JStr "EjRWeJq8BEwKBw==")])].

(** An uplink with no port. *)
Definition tts3_no_f_port : json :=
  JObj [("uplink_message",
         JObj [("f_cnt", JInt 300);
               ("rx_metadata", gateways_no_location);
               ("frm_payload", JStr "EjRWeJq8BEwKBw==")])].

Definition tts3_port5 : json :=
  JObj [("uplink_message", JObj [("f_port", JInt 5)])].

(** ChirpStack v4, port 11. *)
Definition cs34_uplink : json :=
  JObj [("deviceInfo", JObj [("devEui", JStr "0011223344556677")]);
        ("fPort", JInt 11); ("fCnt", JInt 300);
        ("rxInfo", gateways_no_location);
        ("data", JStr "EjRWeJq8BEwKBw==")].

Definition cs34_short : json :=
  JObj [("fPort", JInt 11); ("fCnt", JInt 300);
        ("rxInfo", gateways_no_location);
        ("data", JStr "AAAA")].

Definition cs34_no_fCnt : json :=
  JObj [("fPort", JInt 11);
        ("rxInfo", gateways_no_location);
        ("data", JStr "EjRWeJq8BEwKBw==")].

Definition cs34_no_fPort : json :=
  JObj [("fCnt", JInt 300); ("rxInfo", gateways_no_location);
        ("data", JStr "EjRWeJq8BEwKBw==")].

Definition cs34_port5 : json := JObj [("fPort", JInt 5)].

Definition example_documents : list json :=
  [tts3_uplink; tts3_short; tts3_no_f_cnt; tts3_no_f_port; tts3_port5;
   cs34_uplink; cs34_short; cs34_no_fCnt; cs34_no_fPort; cs34_port5;
   JArr []; JInt 5].

Definition undefined_math (x : float) : result float := Raise ValueError.

#[global] Instance example_lib : PyLib := {|
  json_loads := Fixture.loads_from example_documents;
  json_dumps := Fixture.dumps;
  b64decode := Fixture.b64decode;
  b64encode := Fixture.b64encode;
  math_sin := undefined_math;
  math_cos := undefined_math;
  math_acos := undefined_math
|}.

Definition body (doc : json) : string := Fixture.dumps doc.

Definition members_of (doc : json) : list (string * json) :=
  match doc with
  | JObj d => d
  | _ => []
  end.

Definition config_default : Config := {| publish := false |}.

(** ** The rounded quotient on binary64

    [round_div] is exact arithmetic; this is the computation CPython performs
    for [int(round(x / 250.0))] and [int(round(x / 10.0))]: the int converted
    to a double, an IEEE division, [round] on the double.  The two are
    compared below on every distance under 8,192 m, at the tie 12,345 and at
    the sentinel 1,000,000. *)

Module FloatModel.

Definition round_div_float (x d : Z) : result Z :=
  xf <- py_float x ;;
  df <- py_float d ;;
  py_round (PrimFloat.div xf df).

Definition agrees (d x : Z) : bool :=
  match round_div_float x d with
  | Ok r => r =? round_div x d
  | Raise _ => false
  end.

Fixpoint all_from (p : Z -> bool) (x : Z) (n : nat) : bool :=
  match n with
  | O => true
  | S k => p x && all_from p (x + 1) k
  end.

End FloatModel.

(** ** Gateway records of the usual shape *)

(** The [rssi] of a gateway record when it is an int ([Some (Some z)]) or
    left out ([Some None]); [None] for anything else. *)
Definition rssi_int (g : json) : option (option Z) :=
  match g with
  | JObj d =>
      match lookup "rssi" d with
      | None => Some None
      | Some (JInt z) => Some (Some z)
      | Some _ => None
      end
  | _ => None
  end.

(** The int signals of a gateway list, in order; [None] when some record is
    not an object or holds an [rssi] that is not an int. *)
Fixpoint int_rssis (gateways : list json) : option (list Z) :=
  match gateways with
  | [] => Some []
  | g :: rest =>
      match rssi_int g, int_rssis rest with
      | Some (Some z), Some rs => Some (z :: rs)
      | Some None, Some rs => Some rs
      | _, _ => None
      end
  end.

Definition absent (v : option json) : bool :=
  match v with
  | None | Some JNull => true
  | Some _ => false
  end.

(** A record with no [location], or one that lacks a coordinate. *)
Definition unlocated (g : json) : bool :=
  match g with
  | JObj d =>
      match lookup "location" d with
      | None => true
      | Some (JObj l) => absent (lookup "latitude" l) || absent (lookup "longitude" l)
      | Some _ => false
      end
  | _ => false
  end.

Definition plain_gateway (g : json) : bool :=
  match rssi_int g with
  | Some _ => unlocated g
  | None => false
  end.

Definition is_object (v : json) : bool :=
  match v with
  | JObj _ => true
  | _ => false
  end.

(** ** Start-up: [Config] (lines 13-71)

    [Args] is the namespace [argparse] hands to [Config], an option that was
    not given and has no default being [None].  [sys.exit(1)] is [Exit 1]. *)

Inductive startup (A : Type) : Type :=
| Started (a : A)
| Exit (code : Z).
Arguments Started {A} a.
Arguments Exit {A} code.

Record Args : Set := {
  args_publish : bool;
  args_logging_level : Z + string;
  args_parser_type : string;
  args_mqtt_server_ip : string;
  args_mqtt_server_port : Z;
  args_mqtt_subscribe_topic : option string;
  args_device_devui : option string
}.

(** [not x] on an optional string: [None] and the empty string are false. *)
Definition falsy (x : option string) : bool :=
  match x with
  | None => true
  | Some s => String.eqb s ""
  end.

Definition text (x : option string) : string :=
  match x with
  | None => "None"
  | Some s => s
  end.

Definition with_topic (a : Args) (topic : string) : Args :=
  {| args_publish := args_publish a;
     args_logging_level := args_logging_level a;
     args_parser_type := args_parser_type a;
     args_mqtt_server_ip := args_mqtt_server_ip a;
     args_mqtt_server_port := args_mqtt_server_port a;
     args_mqtt_subscribe_topic := Some topic;
     args_device_devui := args_device_devui a |}.

(** [Config.__init__] after [parse_args] (lines 56-71). *)
Definition Config_init (a : Args) : startup Args :=
  if falsy (args_device_devui a) then Exit 1
  else if falsy (args_mqtt_subscribe_topic a) then
    if String.eqb (args_parser_type a) "TheThingsStack_v3" then
      Started (with_topic a ("v3/+/devices/" ++ text (args_device_devui a) ++ "/up"))
    else if String.eqb (args_parser_type a) "ChirpStack_v3+" then
      Started (with_topic a ("application/+/device/" ++ text (args_device_devui a)
                             ++ "/event/up"))
    else Exit 1
  else Started a.

(** ** The message handler from the bytes of the message (lines 348-355) *)

Definition continuation (b : Z) : bool := (128 <=? b) && (b <=? 191).

(** Well-formed UTF-8, as the strict decoder of [bytes.decode('utf-8')]
    takes it: shortest forms only, no surrogate, nothing above U+10FFFF. *)
Fixpoint utf8_valid (bs : list Z) : bool :=
  match bs with
  | [] => true
  | b0 :: rest =>
      if b0 <? 128 then utf8_valid rest
      else if (194 <=? b0) && (b0 <=? 223) then
        match rest with
        | b1 :: rest' => continuation b1 && utf8_valid rest'
        | _ => false
        end
      else if (224 <=? b0) && (b0 <=? 239) then
        match rest with
        | b1 :: b2 :: rest' =>
            ((if b0 =? 224 then 160 else 128) <=? b1)
            && (b1 <=? (if b0 =? 237 then 159 else 191))
            && continuation b2 && utf8_valid rest'
        | _ => false
        end
      else if (240 <=? b0) && (b0 <=? 244) then
        match rest with
        | b1 :: b2 :: b3 :: rest' =>
            ((if b0 =? 240 then 144 else 128) <=? b1)
            && (b1 <=? (if b0 =? 244 then 143 else 191))
            && continuation b2 && continuation b3 && utf8_valid rest'
        | _ => false
        end
      else false
  end.

(** [raw.decode('utf-8')]: the text when the bytes are well formed ([None]
    is [UnicodeDecodeError]).  A text is kept as its UTF-8 bytes. *)
Definition utf8_decode (raw : list byte) : option string :=
  if utf8_valid (map byte_val raw) then Some (string_of_list_byte raw) else None.

(** [mqtt_on_message] whole: the body is decoded (line 349), then handled.
    The logging of lines 350, 353 and 354 formats a [str] with '%s' and
    changes nothing.  The result is what reaches [mqtt_client.publish]; what
    the broker client does with it is the library's. *)
Definition mqtt_on_message_bytes {L : PyLib} (t : parser_type) (config : Config)
  (topic : string) (raw : list byte) : result (option (string * string)) :=
  match utf8_decode raw with
  | None => Raise UnicodeDecodeError
  | Some payload => mqtt_on_message t config topic payload
  end.

(** * Properties *)

(** ** Arithmetic of the encoder *)

Lemma round_half_even_nearest (n d : Z) :
  0 < d ->
  2 * Z.abs (n - round_half_even n d * d) <= d /\
  (2 * Z.abs (n - round_half_even n d * d) = d ->
   Z.even (round_half_even n d) = true).
Proof.
  intros Hd. unfold round_half_even.
  pose proof (Z.div_mod n d ltac:(lia)) as E.
  pose proof (Z.mod_pos_bound n d Hd) as B.
  destruct (2 * (n mod d) <? d) eqn:H1; [apply Z.ltb_lt in H1; split; nia|].
  apply Z.ltb_ge in H1.
  destruct (d <? 2 * (n mod d)) eqn:H2; [apply Z.ltb_lt in H2; split; nia|].
  apply Z.ltb_ge in H2.
  destruct (Z.even (n / d)) eqn:H3.
  - split; [nia | intros _; exact H3].
  - split; [nia | intros _].
    rewrite Z.even_add, H3. reflexivity.
Qed.

Lemma constrain_bounds (v lo hi : Z) :
  lo <= hi -> lo <= constrain v lo hi <= hi.
Proof. unfold constrain. lia. Qed.

Lemma hi_lo_bytes (v : Z) :
  0 <= hi_byte v <= 255 /\ 0 <= lo_byte v <= 255.
Proof.
  unfold hi_byte, lo_byte.
  pose proof (Z.mod_pos_bound (Z.quot v 256) 256 ltac:(lia)).
  pose proof (Z.mod_pos_bound v 256 ltac:(lia)). lia.
Qed.

Lemma hi_lo_join (v : Z) :
  0 <= v <= 65535 -> hi_byte v * 256 + lo_byte v = v.
Proof.
  intros Hv. unfold hi_byte, lo_byte.
  rewrite Z.quot_div_nonneg by lia.
  rewrite (Z.mod_small (v / 256) 256).
  - pose proof (Z.div_mod v 256 ltac:(lia)). lia.
  - split; [apply Z.div_pos; lia | apply Z.div_lt_upper_bound; lia].
Qed.

Lemma rssi_byte_is_byte (x y : pynum) : rssi_byte x = Ok y -> is_byte y.
Proof.
  unfold rssi_byte, bind. destruct (py_int_of (py_add_int x 200)) as [v|e]; [|discriminate].
  intros [= <-]. exists (v mod 256). split; [reflexivity|].
  pose proof (Z.mod_pos_bound v 256 ltac:(lia)). lia.
Qed.

Lemma py_bytes_of_bytes (buf : list pynum) :
  Forall is_byte buf -> exists bs, py_bytes buf = Ok bs.
Proof.
  induction 1 as [|x rest [z [-> Hz]] _ [bs IH]]; [exists []; reflexivity|].
  cbn [py_bytes].
  replace ((0 <=? z) && (z <? 256)) with true
    by (symmetry; apply andb_true_iff; split; [apply Z.leb_le | apply Z.ltb_lt]; lia).
  destruct (Byte.of_N (Z.to_N z)) as [b|] eqn:Hb.
  - rewrite IH. exists (b :: bs). reflexivity.
  - exfalso. apply Byte.of_N_None_iff in Hb. lia.
Qed.

(** ** The encoder (lines 208-231) *)

Lemma encode_port1_inv (hasFix : bool) (a : Aggregate) (seq : json) (buf : list pynum) :
  encode hasFix a (JInt 1) seq = Ok (Some buf) ->
  exists n lo hi,
    num_of seq = Ok n /\ rssi_byte (min_rssi a) = Ok lo /\ rssi_byte (max_rssi a) = Ok hi /\
    buf = [py_mod256 n; lo; hi;
           PInt (if hasFix then constrain (round_div (min_distance a) 250) 1 128 else 0);
           PInt (if hasFix then constrain (round_div (max_distance a) 250) 1 128 else 0);
           PInt (num_gateways a mod 256)].
Proof.
  unfold encode. change (json_eq_int (JInt 1) 1) with true. cbv iota. unfold bind.
  destruct (num_of seq) as [n|]; [|discriminate].
  destruct (rssi_byte (min_rssi a)) as [lo|]; [|discriminate].
  destruct (rssi_byte (max_rssi a)) as [hi|]; [|discriminate].
  intros [= <-]. exists n, lo, hi. repeat split.
Qed.

Lemma encode_port11_inv (hasFix : bool) (a : Aggregate) (seq : json) (buf : list pynum) :
  encode hasFix a (JInt 11) seq = Ok (Some buf) ->
  exists n lo hi,
    num_of seq = Ok n /\ rssi_byte (min_rssi a) = Ok lo /\ rssi_byte (max_rssi a) = Ok hi /\
    let min_d := if hasFix then constrain (round_div (min_distance a) 10) 1 65535 else 0 in
    let max_d := if hasFix then constrain (round_div (max_distance a) 10) 1 65535 else 0 in
    buf = [py_mod256 n; lo; hi;
           PInt (hi_byte min_d); PInt (lo_byte min_d);
           PInt (hi_byte max_d); PInt (lo_byte max_d);
           PInt (num_gateways a mod 256)].
Proof.
  unfold encode. change (json_eq_int (JInt 11) 1) with false.
  change (json_eq_int (JInt 11) 11) with true. cbv iota. unfold bind.
  destruct (num_of seq) as [n|]; [|discriminate].
  destruct (rssi_byte (min_rssi a)) as [lo|]; [|discriminate].
  destruct (rssi_byte (max_rssi a)) as [hi|]; [|discriminate].
  intros [= <-]. exists n, lo, hi. repeat split.
Qed.

Lemma encode_int_signals (hasFix : bool) (a : Aggregate) (port s : Z) :
  port = 1 \/ port = 11 -> int_signals a ->
  exists buf, encode hasFix a (JInt port) (JInt s) = Ok (Some buf).
Proof.
  intros Hp (lo & hi & Hlo & Hhi). unfold encode.
  destruct Hp as [-> | ->].
  - change (json_eq_int (JInt 1) 1) with true. cbv iota.
    rewrite Hlo, Hhi. cbn. eexists. reflexivity.
  - change (json_eq_int (JInt 11) 1) with false.
    change (json_eq_int (JInt 11) 11) with true. cbv iota.
    rewrite Hlo, Hhi. cbn. eexists. reflexivity.
Qed.

Lemma distance_field_zero (hasFix : bool) (v hi : Z) :
  1 <= hi ->
  ((if hasFix then constrain v 1 hi else 0) = 0 <-> hasFix = false) /\
  (hasFix = true -> 1 <= (if hasFix then constrain v 1 hi else 0) <= hi).
Proof.
  intros H. pose proof (constrain_bounds v 1 hi H).
  destruct hasFix; split; try (split; intros); try lia; try discriminate; reflexivity.
Qed.

(** C5. Port 1, sequence 300, signals -80 and -60, distances 500 m and
    1000 m, three gateways, a valid fix: the buffer is
    [44, 120, 140, 2, 4, 3], which [bytes] accepts. *)
Theorem encode_port1_example :
  encode true aggregate_300 (JInt 1) (JInt 300)
  = Ok (Some [PInt 44; PInt 120; PInt 140; PInt 2; PInt 4; PInt 3])
  /\ py_bytes [PInt 44; PInt 120; PInt 140; PInt 2; PInt 4; PInt 3]
     = Ok [x2c; x78; x8c; x02; x04; x03]%byte.
Proof. split; reflexivity. Qed.

(** C9. For ports 1 and 11 and an integer sequence number: with integer
    signal bounds a buffer is produced; every produced buffer holds only
    ints of 0..255, so [bytes] accepts it; and each distance field is 0
    exactly when there is no fix, lying in 1..128 (port 1) or 1..65535
    (port 11, 16 bits) when there is one. *)
Theorem encode_buffer_invariant (hasFix : bool) (a : Aggregate) (port s : Z) :
  port = 1 \/ port = 11 ->
  (int_signals a -> exists buf, encode hasFix a (JInt port) (JInt s) = Ok (Some buf)) /\
  (forall buf, encode hasFix a (JInt port) (JInt s) = Ok (Some buf) ->
     Forall is_byte buf /\
     (exists bs, py_bytes buf = Ok bs) /\
     (port = 1 ->
        List.length buf = 6%nat /\
        (field buf 3 = 0 <-> hasFix = false) /\
        (field buf 4 = 0 <-> hasFix = false) /\
        (hasFix = true -> 1 <= field buf 3 <= 128 /\ 1 <= field buf 4 <= 128)) /\
     (port = 11 ->
        List.length buf = 8%nat /\
        (field16 buf 3 = 0 <-> hasFix = false) /\
        (field16 buf 5 = 0 <-> hasFix = false) /\
        (hasFix = true -> 1 <= field16 buf 3 <= 65535 /\ 1 <= field16 buf 5 <= 65535))).
Proof.
  intros Hp. split; [apply encode_int_signals; exact Hp|].
  intros buf Hbuf.
  assert (Hmod : forall z, is_byte (PInt (z mod 256))).
  { intros z. exists (z mod 256). split; [reflexivity|].
    pose proof (Z.mod_pos_bound z 256 ltac:(lia)). lia. }
  destruct Hp as [-> | ->].
  - apply encode_port1_inv in Hbuf.
    destruct Hbuf as (n & lo & hi & Hn & Hlo & Hhi & ->).
    injection Hn as <-. apply rssi_byte_is_byte in Hlo, Hhi.
    destruct (distance_field_zero hasFix (round_div (min_distance a) 250) 128 ltac:(lia))
      as [Z1 R1].
    destruct (distance_field_zero hasFix (round_div (max_distance a) 250) 128 ltac:(lia))
      as [Z2 R2].
    assert (Hall : Forall is_byte
              [py_mod256 (PInt s); lo; hi;
               PInt (if hasFix then constrain (round_div (min_distance a) 250) 1 128 else 0);
               PInt (if hasFix then constrain (round_div (max_distance a) 250) 1 128 else 0);
               PInt (num_gateways a mod 256)]).
    { repeat constructor; try assumption; try apply Hmod.
      - eexists; split; [reflexivity|]. destruct hasFix; [specialize (R1 eq_refl)|]; lia.
      - eexists; split; [reflexivity|]. destruct hasFix; [specialize (R2 eq_refl)|]; lia. }
    split; [exact Hall|]. split; [apply py_bytes_of_bytes; exact Hall|].
    split; [intros _ | intros [=]].
    unfold field; cbn [nth_error List.length].
    repeat split; try apply Z1; try apply Z2; try (apply R1; assumption);
      try (apply R2; assumption).
  - apply encode_port11_inv in Hbuf.
    destruct Hbuf as (n & lo & hi & Hn & Hlo & Hhi & Hb).
    cbv zeta in Hb. subst buf.
    injection Hn as <-. apply rssi_byte_is_byte in Hlo, Hhi.
    destruct (distance_field_zero hasFix (round_div (min_distance a) 10) 65535 ltac:(lia))
      as [Z1 R1].
    destruct (distance_field_zero hasFix (round_div (max_distance a) 10) 65535 ltac:(lia))
      as [Z2 R2].
    set (d1 := if hasFix then constrain (round_div (min_distance a) 10) 1 65535 else 0) in *.
    set (d2 := if hasFix then constrain (round_div (max_distance a) 10) 1 65535 else 0) in *.
    assert (B1 : 0 <= d1 <= 65535)
      by (subst d1; destruct hasFix; [specialize (R1 eq_refl)|]; lia).
    assert (B2 : 0 <= d2 <= 65535)
      by (subst d2; destruct hasFix; [specialize (R2 eq_refl)|]; lia).
    assert (Hall : Forall is_byte
              [py_mod256 (PInt s); lo; hi; PInt (hi_byte d1); PInt (lo_byte d1);
               PInt (hi_byte d2); PInt (lo_byte d2); PInt (num_gateways a mod 256)]).
    { repeat constructor; try assumption; try apply Hmod;
        eexists; (split; [reflexivity|]);
        first [apply (hi_lo_bytes d1) | apply (hi_lo_bytes d2)]. }
    split; [exact Hall|]. split; [apply py_bytes_of_bytes; exact Hall|].
    split; [intros [=] | intros _].
    unfold field16, field; cbn [nth_error List.length].
    rewrite (hi_lo_join d1 B1), (hi_lo_join d2 B2).
    repeat split; try apply Z1; try apply Z2; try (apply R1; assumption);
      try (apply R2; assumption).
Qed.

Lemma encode_buffer_invariant_witness :
  exists buf,
    encode true aggregate_300 (JInt 11) (JInt 300) = Ok (Some buf) /\
    Forall is_byte buf /\ 1 <= field16 buf 3 <= 65535.
Proof.
  destruct (encode_buffer_invariant true aggregate_300 11 300 (or_intror eq_refl))
    as [_ H].
  eexists. split; [reflexivity|].
  destruct (H _ eq_refl) as (Hb & _ & _ & H11).
  split; [exact Hb|].
  destruct (H11 eq_refl) as (_ & _ & _ & R). apply (R eq_refl).
Defined.

(** C1, as the code has it. With a valid fix the port-11 16-bit distances are
    clamp(round(meters / 10), 1, 65535) and the port-1 distance bytes are
    clamp(round(meters / 250), 1, 128), where round is round half to EVEN
    (Python 3's [round]); so 12,345 m is encoded on port 11 as 1234, bytes
    hi = 4 and lo = 210. *)
Theorem encode_distance_rounding (a : Aggregate) (seq : json) :
  (forall buf, encode true a (JInt 11) seq = Ok (Some buf) ->
     field16 buf 3 = constrain (round_half_even (min_distance a) 10) 1 65535 /\
     field16 buf 5 = constrain (round_half_even (max_distance a) 10) 1 65535 /\
     (min_distance a = 12345 ->
      field16 buf 3 = 1234 /\ field buf 3 = 4 /\ field buf 4 = 210)) /\
  (forall buf, encode true a (JInt 1) seq = Ok (Some buf) ->
     field buf 3 = constrain (round_half_even (min_distance a) 250) 1 128 /\
     field buf 4 = constrain (round_half_even (max_distance a) 250) 1 128).
Proof.
  split; intros buf Hbuf.
  - apply encode_port11_inv in Hbuf.
    destruct Hbuf as (n & lo & hi & _ & _ & _ & Hb). cbv zeta in Hb. subst buf.
    unfold round_div.
    pose proof (constrain_bounds (round_half_even (min_distance a) 10) 1 65535 ltac:(lia)).
    pose proof (constrain_bounds (round_half_even (max_distance a) 10) 1 65535 ltac:(lia)).
    unfold field16, field; cbn [nth_error].
    rewrite !hi_lo_join by lia.
    split; [reflexivity|]. split; [reflexivity|].
    intros ->. repeat split.
  - apply encode_port1_inv in Hbuf.
    destruct Hbuf as (n & lo & hi & _ & _ & _ & ->).
    unfold field; cbn [nth_error]. split; reflexivity.
Qed.

Lemma encode_distance_rounding_witness :
  exists buf,
    encode true aggregate_12345 (JInt 11) (JInt 0) = Ok (Some buf) /\
    field16 buf 3 = 1234 /\ field buf 3 = 4 /\ field buf 4 = 210.
Proof.
  eexists. split; [reflexivity|].
  destruct (encode_distance_rounding aggregate_12345 (JInt 0)) as [H _].
  destruct (H _ eq_refl) as (_ & _ & R). apply (R eq_refl).
Defined.

(** C1 as stated fails: at 12,345 m on port 11 the quotient is the double
    1234.5 exactly, [round] takes the tie to the even 1234, and the buffer
    carries 1234 (hi = 4, lo = 210), not the 1235 (lo = 211) that rounding
    half away from zero gives. *)
Lemma encode_distance_not_half_away :
  PrimFloat.div (float_of_Z 12345) 10%float = 1234.5%float /\
  py_round 1234.5%float = Ok 1234 /\
  constrain (round_half_away 12345 10) 1 65535 = 1235 /\
  exists buf,
    encode true aggregate_12345 (JInt 11) (JInt 0) = Ok (Some buf) /\
    field16 buf 3 = 1234 /\
    field16 buf 3 <> constrain (round_half_away (min_distance aggregate_12345) 10) 1 65535 /\
    field buf 3 = 4 /\ field buf 4 = 210 /\ field buf 4 <> 211.
Proof.
  split; [reflexivity|]. split; [reflexivity|]. split; [reflexivity|].
  eexists. split; [reflexivity|].
  repeat split; cbv; congruence.
Qed.

(** ** The decoder (lines 158-172) *)

Lemma byte_val_bounds (b : byte) : 0 <= byte_val b < 256.
Proof. unfold byte_val. pose proof (Byte.to_N_bounded b). lia. Qed.

Lemma getitem_byte_at (data : list byte) (i : nat) :
  (i < List.length data)%nat -> getitem data i = Ok (byte_at data i).
Proof.
  intros H. unfold getitem, byte_at.
  rewrite (nth_error_nth' data x00%byte H). reflexivity.
Qed.

Lemma getitem_short (data : list byte) (i : nat) :
  (List.length data <= i)%nat -> getitem data i = Raise IndexError.
Proof.
  intros H. unfold getitem.
  apply nth_error_None in H. rewrite H. reflexivity.
Qed.

(** On a byte, [hdop <= 2] (a comparison of doubles) says the byte is at most
    20: checked on each of the 256 values. *)
Lemma hdop_le_2 (b : byte) :
  PrimFloat.leb (int_truediv (byte_val b) 10) 2%float = (byte_val b <=? 20).
Proof. destruct b; vm_compute; reflexivity. Qed.

Lemma sign_bit (a n : Z) :
  0 <= n ->
  (if Z.land (Z.shiftr a n) 1 =? 0 then 1 else -1)
  = (if Z.testbit a n then -1 else 1).
Proof.
  intros Hn.
  change 1 with (Z.ones 1) at 1. rewrite Z.land_ones by lia.
  rewrite Z.shiftr_div_pow2 by lia.
  change (2 ^ 1) with 2.
  rewrite <- (Z.testbit_spec' a n Hn).
  destruct (Z.testbit a n); reflexivity.
Qed.

(** [decode] never fails on ten bytes or more, and fails with [IndexError] on
    fewer. *)
Lemma decode_total (data : list byte) :
  (10 <= List.length data)%nat -> decode data = Ok (fix_of data).
Proof.
  intros H. unfold decode, fix_of.
  rewrite !getitem_byte_at by lia. cbn [bind].
  destruct (PrimFloat.leb (int_truediv (byte_at data 8) 10) 2 && (5 <=? byte_at data 9));
    reflexivity.
Qed.

Lemma decode_short (data : list byte) :
  (List.length data < 10)%nat -> decode data = Raise IndexError.
Proof.
  intros H. unfold decode.
  destruct (Nat.le_gt_cases (List.length data) 8) as [H8 | H8].
  - rewrite (getitem_short data 8) by lia. reflexivity.
  - rewrite (getitem_byte_at data 8) by lia.
    rewrite (getitem_short data 9) by lia. reflexivity.
Qed.

(** C6. On a 10-byte payload the decoder sets hdop = byte[8] / 10.0 and
    satellites = byte[9], and hasFix holds exactly when hdop <= 2.0 and
    satellites >= 5 (that is, byte[8] <= 20 and byte[9] >= 5). *)
Theorem decode_fix_quality (data : list byte) :
  List.length data = 10%nat ->
  exists gps,
    decode data = Ok gps /\
    hdop gps = PrimFloat.div (float_of_Z (byte_at data 8)) 10%float /\
    sats gps = byte_at data 9 /\
    (has_gps gps = true <->
     PrimFloat.leb (hdop gps) 2%float = true /\ 5 <= sats gps) /\
    (PrimFloat.leb (hdop gps) 2%float = true <-> byte_at data 8 <= 20).
Proof.
  intros Hlen. exists (fix_of data).
  split; [apply decode_total; lia|].
  assert (Hh : hdop (fix_of data) = int_truediv (byte_at data 8) 10).
  { unfold fix_of.
    destruct (PrimFloat.leb (int_truediv (byte_at data 8) 10) 2 && (5 <=? byte_at data 9));
      reflexivity. }
  assert (Hs : sats (fix_of data) = byte_at data 9).
  { unfold fix_of.
    destruct (PrimFloat.leb (int_truediv (byte_at data 8) 10) 2 && (5 <=? byte_at data 9));
      reflexivity. }
  assert (Hg : has_gps (fix_of data)
               = PrimFloat.leb (int_truediv (byte_at data 8) 10) 2 && (5 <=? byte_at data 9)).
  { unfold fix_of.
    destruct (PrimFloat.leb (int_truediv (byte_at data 8) 10) 2 && (5 <=? byte_at data 9));
      reflexivity. }
  rewrite Hh, Hs, Hg. split; [reflexivity|]. split; [reflexivity|]. split.
  - rewrite andb_true_iff, Z.leb_le. reflexivity.
  - unfold byte_at. rewrite hdop_le_2, Z.leb_le. reflexivity.
Qed.

Lemma decode_fix_quality_witness :
  exists gps, decode payload_fix = Ok gps /\ has_gps gps = true /\ sats gps = 7.
Proof.
  destruct (decode_fix_quality payload_fix eq_refl) as (gps & Hd & _ & Hs & Hg & Hb).
  exists gps. split; [exact Hd|]. split; [|exact Hs].
  apply Hg. split; [apply Hb; vm_compute; discriminate | rewrite Hs; vm_compute; discriminate].
Defined.

Lemma encLat_arith (b0 b1 b2 b3 : Z) :
  Z.shiftl (Z.land b0 63) 17 + Z.shiftl b1 9 + Z.shiftl b2 1 + Z.shiftr b3 7
  = (b0 mod 64) * 2 ^ 17 + b1 * 2 ^ 9 + b2 * 2 + b3 / 128.
Proof.
  change 63 with (Z.ones 6). rewrite Z.land_ones by lia.
  rewrite !Z.shiftl_mul_pow2, Z.shiftr_div_pow2 by lia. reflexivity.
Qed.

Lemma encLon_arith (b3 b4 b5 : Z) :
  Z.shiftl (Z.land b3 127) 16 + Z.shiftl b4 8 + b5
  = (b3 mod 128) * 2 ^ 16 + b4 * 2 ^ 8 + b5.
Proof.
  change 127 with (Z.ones 7). rewrite Z.land_ones by lia.
  rewrite !Z.shiftl_mul_pow2 by lia. reflexivity.
Qed.

(** C4. Every 10-byte payload with a valid fix (byte[8] <= 20, that is
    hdop <= 2.0, and byte[9] >= 5) is decoded, with has_gps set and
    latitude = latSign * (encLat * 108 + 53) / 10,000,000 and
    longitude = lonSign * (encLon * 215 + 107) / 10,000,000, the signs being
    negative exactly when bit 6 (latitude) or bit 7 (longitude) of byte[0] is
    set; encLat is the low 6 bits of byte[0], bytes[1..2] and the top bit of
    byte[3] (it fits 24 bits, in fact 23); encLon is the low 7 bits of
    byte[3] and bytes[4..5] (23 bits); altitude = (byte[6] << 8) + byte[7]
    - 1000; accuracy = (hdop * 5 + 5) / 10 with hdop = byte[8] / 10. *)
Theorem decode_position (data : list byte) :
  List.length data = 10%nat ->
  byte_at data 8 <= 20 ->
  5 <= byte_at data 9 ->
  let h := PrimFloat.div (float_of_Z (byte_at data 8)) 10%float in
  let latSign := if Z.testbit (byte_at data 0) 6 then -1 else 1 in
  let lonSign := if Z.testbit (byte_at data 0) 7 then -1 else 1 in
  let encLat := (byte_at data 0 mod 64) * 2 ^ 17 + byte_at data 1 * 2 ^ 9
                + byte_at data 2 * 2 + byte_at data 3 / 128 in
  let encLon := (byte_at data 3 mod 128) * 2 ^ 16 + byte_at data 4 * 2 ^ 8
                + byte_at data 5 in
  0 <= encLat < 2 ^ 23 /\ 0 <= encLon < 2 ^ 23 /\
  PrimFloat.leb h 2%float = true /\
  exists gps,
    decode data = Ok gps /\
    has_gps gps = true /\
    hdop gps = h /\
    sats gps = byte_at data 9 /\
    position gps = Some {|
      latitude := PrimFloat.div (float_of_Z (latSign * (encLat * 108 + 53))) 10000000%float;
      longitude := PrimFloat.div (float_of_Z (lonSign * (encLon * 215 + 107))) 10000000%float;
      altitude := (byte_at data 6 * 2 ^ 8 + byte_at data 7) - 1000;
      accuracy := PrimFloat.div
                    (PrimFloat.add (PrimFloat.mul h 5%float) 5%float)
                    10%float |}.
Proof.
  intros Hlen H8 H9. cbv zeta.
  assert (B : forall i, 0 <= byte_at data i < 256)
    by (intros i; apply byte_val_bounds).
  split.
  { pose proof (B 1%nat). pose proof (B 2%nat). pose proof (B 3%nat).
    pose proof (Z.mod_pos_bound (byte_at data 0) 64 ltac:(lia)).
    pose proof (Z.div_pos (byte_at data 3) 128 ltac:(lia) ltac:(lia)).
    assert (byte_at data 3 / 128 < 2) by (apply Z.div_lt_upper_bound; lia).
    lia. }
  split.
  { pose proof (B 4%nat). pose proof (B 5%nat).
    pose proof (Z.mod_pos_bound (byte_at data 3) 128 ltac:(lia)). lia. }
  assert (Hh : PrimFloat.leb (int_truediv (byte_at data 8) 10) 2%float = true)
    by (unfold byte_at; rewrite hdop_le_2; apply Z.leb_le; exact H8).
  split; [exact Hh|].
  exists (fix_of data). split; [apply decode_total; lia|].
  unfold fix_of. rewrite Hh.
  replace (5 <=? byte_at data 9) with true by (symmetry; apply Z.leb_le; exact H9).
  cbn [andb has_gps hdop sats position].
  split; [reflexivity|]. split; [reflexivity|]. split; [reflexivity|].
  rewrite !sign_bit by lia.
  rewrite encLat_arith, encLon_arith, Z.shiftl_mul_pow2 by lia.
  reflexivity.
Qed.

Lemma decode_position_witness :
  exists gps p,
    decode payload_fix = Ok gps /\ has_gps gps = true /\ position gps = Some p /\
    latitude p = PrimFloat.div (float_of_Z 257697989) 10000000%float /\
    altitude p = 100.
Proof.
  pose proof (decode_position payload_fix eq_refl ltac:(vm_compute; discriminate)
                ltac:(vm_compute; discriminate)) as H.
  cbv zeta in H. destruct H as (_ & _ & _ & gps & Hd & Hg & _ & _ & Hp).
  exists gps. eexists.
  split; [exact Hd|]. split; [exact Hg|]. split; [exact Hp|].
  split; vm_compute; reflexivity.
Defined.
(** ** The aggregator (lines 175-192) *)

(** C7. With a valid fix and an empty gateway list the aggregate is the
    initial one: no gateway, signals 200 and -200, distances 1,000,000 and
    0; [process] returns it unchanged. *)
Theorem aggregate_no_gateways {L : PyLib} (gps : GpsFix) :
  has_gps gps = true ->
  aggregate gps (JArr []) = Ok aggregate_sentinels /\
  (forall data port sequence_id config out,
     decode data = Ok gps ->
     process data port sequence_id (JArr []) config = Ok out ->
     agg out = aggregate_sentinels).
Proof.
  intros Hg.
  assert (Ha : aggregate gps (JArr []) = Ok aggregate_sentinels).
  { unfold aggregate, aggregate_init. cbn [py_iter bind List.length aggregate_loop].
    rewrite Hg. reflexivity. }
  split; [exact Ha|].
  intros data port sequence_id config out Hd. unfold process.
  rewrite Hd. cbn [bind]. rewrite Ha. cbn [bind].
  destruct (encode (has_gps gps) aggregate_sentinels port sequence_id) as [b|e];
    [|discriminate].
  intros [= <-]. reflexivity.
Qed.

Lemma aggregate_no_gateways_witness :
  exists out,
    process payload_fix (JInt 1) (JInt 300) (JArr []) config_default = Ok out /\
    has_gps (fix_ out) = true /\ agg out = aggregate_sentinels.
Proof.
  eexists. split; [reflexivity|]. split; [reflexivity|].
  destruct (aggregate_no_gateways (fix_of payload_fix) eq_refl) as [_ H].
  apply (H payload_fix (JInt 1) (JInt 300) config_default); reflexivity.
Defined.

(** ** Short payloads (lines 159-160) *)

Lemma process_short {L : PyLib} (data : list byte) (port sequence_id gateways : json)
  (config : Config) :
  (List.length data < 10)%nat ->
  process data port sequence_id gateways config = Raise IndexError.
Proof. intros H. unfold process. rewrite decode_short by exact H. reflexivity. Qed.

(** C2: what the code does. A well-formed uplink on port 1 or 11 whose
    payload decodes to fewer than 10 bytes is not dropped: [process] raises
    [IndexError] at [data[8]] or [data[9]], neither parser catches it, and it
    leaves [mqtt_on_message]. *)
Theorem short_payload_raises {L : PyLib} (t : parser_type) (config : Config)
  (topic payload : string) (doc port sequence_id gateways frm : json)
  (data : list byte) :
  json_loads payload = Some doc ->
  match t with
  | TheThingsStack_v3 => tts3_fields doc port sequence_id gateways frm
  | ChirpStack_v3plus => cs34_fields doc port sequence_id gateways frm
  end ->
  unsupported port = false ->
  b64decode frm = Ok data ->
  (List.length data < 10)%nat ->
  parser t config topic payload = Raise IndexError /\
  mqtt_on_message t config topic payload = Raise IndexError.
Proof.
  intros Hj Hf Hp Hb Hlen.
  assert (H : parser t config topic payload = Raise IndexError).
  { destruct t; cbn [parser].
    - destruct Hf as (d & um & -> & Hu & Hport & Hseq & Hgw & Hfrm).
      unfold parser_tts3. rewrite Hj. cbn [py_in py_item bind].
      rewrite Hu. cbn [negb bind py_item]. rewrite Hport. cbn [bind]. rewrite Hp.
      rewrite Hseq, Hgw, Hfrm. cbn [bind]. rewrite Hb. cbn [bind].
      rewrite process_short by exact Hlen. reflexivity.
    - destruct Hf as (d & -> & Hport & Hseq & Hgw & Hfrm).
      unfold parser_cs34. rewrite Hj. cbn [py_in py_get py_item bind].
      rewrite Hport. cbn [bind]. rewrite Hp.
      rewrite Hseq, Hgw, Hfrm. cbn [bind]. rewrite Hb. cbn [bind].
      rewrite process_short by exact Hlen. reflexivity. }
  split; [exact H|]. unfold mqtt_on_message. rewrite H. reflexivity.
Qed.

Lemma short_payload_raises_witness :
  mqtt_on_message TheThingsStack_v3 config_default
    "v3/app@ttn/devices/dev1/up" (body tts3_short) = Raise IndexError /\
  mqtt_on_message ChirpStack_v3plus config_default
    "application/123/device/ABC/event/up" (body cs34_short) = Raise IndexError.
Proof.
  split.
  - apply (short_payload_raises TheThingsStack_v3 config_default _ (body tts3_short)
             tts3_short (JInt 1) (JInt 300) gateways_no_location (JStr "AAAA")
             [x00; x00; x00]%byte); try reflexivity.
    + do 2 eexists. repeat split.
    + cbn. lia.
  - apply (short_payload_raises ChirpStack_v3plus config_default _ (body cs34_short)
             cs34_short (JInt 11) (JInt 300) gateways_no_location (JStr "AAAA")
             [x00; x00; x00]%byte); try reflexivity.
    + eexists. repeat split.
    + cbn. lia.
Defined.

(** ** Topic rewriting (lines 266 and 311) *)

Lemma replace_from_app (old new p s : string) :
  starts_within old p s = false ->
  replace_from old new O (p ++ s) = p ++ replace_from old new O s.
Proof.
  induction p as [|c p IH]; intros H; [reflexivity|].
  cbn [starts_within] in H. apply orb_false_iff in H. destruct H as [H1 H2].
  change (String c p ++ s) with (String c (p ++ s)) in *.
  cbn [replace_from]. rewrite H1, (IH H2). reflexivity.
Qed.

(** Unfolding a parser that returned normally. *)
Ltac bind_inv H :=
  repeat match type of H with
         | context [bind ?c _] =>
             let E := fresh "E" in
             destruct c eqn:E; cbn [bind] in H; [|discriminate H]
         end.

Lemma parser_tts3_topic {L : PyLib} (config : Config) (topic payload t p : string) :
  parser_tts3 config topic payload = Ok (Downlink t p) ->
  t = str_replace topic "/up" "/down/replace".
Proof.
  unfold parser_tts3. intros H.
  destruct (json_loads payload) as [doc|]; [|discriminate H].
  destruct (py_in "uplink_message" doc) as [present|]; cbn [bind] in H; [|discriminate H].
  destruct (negb present); [discriminate H|].
  destruct (py_item doc "uplink_message") as [um|]; cbn [bind] in H; [|discriminate H].
  destruct (py_item um "f_port") as [port|]; cbn [bind] in H; [|discriminate H].
  destruct (unsupported port); [discriminate H|].
  bind_inv H. injection H as <- _. reflexivity.
Qed.

Lemma parser_cs34_topic {L : PyLib} (config : Config) (topic payload t p : string) :
  parser_cs34 config topic payload = Ok (Downlink t p) ->
  t = str_replace topic "/event/up" "/command/down".
Proof.
  unfold parser_cs34. intros H.
  destruct (json_loads payload) as [doc|]; [|discriminate H].
  destruct (py_in "deviceInfo" doc) as [v4|]; cbn [bind] in H; [|discriminate H].
  destruct (py_get doc "fPort" (JInt 0)) as [port|]; cbn [bind] in H; [|discriminate H].
  destruct (unsupported port); [discriminate H|].
  bind_inv H. destruct v4.
  - bind_inv H. injection H as <- _. reflexivity.
  - injection H as <- _. reflexivity.
Qed.

(** C8, as the code has it. The outbound topic is the inbound topic with
    EVERY occurrence of '/up' (TTS3) or '/event/up' (ChirpStack) replaced by
    '/down/replace' or '/command/down', as [str.replace] does; so
    'application/123/device/ABC/event/up' becomes
    'application/123/device/ABC/command/down', and a topic whose only
    occurrence of the pattern is its suffix has exactly that suffix
    replaced. *)
Theorem downlink_topic {L : PyLib} (config : Config) (topic payload t p : string) :
  (parser_tts3 config topic payload = Ok (Downlink t p) ->
   t = str_replace topic "/up" "/down/replace") /\
  (parser_cs34 config topic payload = Ok (Downlink t p) ->
   t = str_replace topic "/event/up" "/command/down") /\
  str_replace "application/123/device/ABC/event/up" "/event/up" "/command/down"
  = "application/123/device/ABC/command/down" /\
  (forall pre, starts_within "/up" pre "/up" = false ->
     str_replace (pre ++ "/up") "/up" "/down/replace" = pre ++ "/down/replace") /\
  (forall pre, starts_within "/event/up" pre "/event/up" = false ->
     str_replace (pre ++ "/event/up") "/event/up" "/command/down"
     = pre ++ "/command/down").
Proof.
  split; [apply parser_tts3_topic|]. split; [apply parser_cs34_topic|].
  split; [reflexivity|].
  split; intros pre H; unfold str_replace; rewrite (replace_from_app _ _ _ _ H);
    reflexivity.
Qed.

Lemma downlink_topic_witness :
  exists p,
    parser_cs34 config_default "application/123/device/ABC/event/up" (body cs34_uplink)
    = Ok (Downlink "application/123/device/ABC/command/down" p) /\
    parser_tts3 config_default "v3/app@ttn/devices/dev1/up" (body tts3_uplink)
    = Ok (Downlink ("v3/app@ttn/devices/dev1" ++ "/down/replace")
            (body (JObj [("downlinks",
                          JArr [JObj [("f_port", JInt 2);
                                      ("frm_payload", JStr "LHiMgAEC");
                                      ("priority", JStr "HIGH")]])]))).
Proof.
  eexists. split; [reflexivity|].
  destruct (downlink_topic config_default "v3/app@ttn/devices/dev1/up" (body tts3_uplink)
              (str_replace "v3/app@ttn/devices/dev1/up" "/up" "/down/replace")
              (body (JObj [("downlinks",
                            JArr [JObj [("f_port", JInt 2);
                                        ("frm_payload", JStr "LHiMgAEC");
                                        ("priority", JStr "HIGH")]])])))
    as (_ & _ & _ & H & _).
  rewrite <- (H "v3/app@ttn/devices/dev1" eq_refl). reflexivity.
Defined.

(** C8 as stated fails for TTS3: 'v3/upper@ttn/devices/dev1/up' holds '/up'
    twice, both are replaced, and the outbound topic is not the inbound one
    with its trailing '/up' replaced. *)
Lemma downlink_topic_not_trailing :
  exists t p,
    parser_tts3 config_default "v3/upper@ttn/devices/dev1/up" (body tts3_uplink)
    = Ok (Downlink t p) /\
    t = "v3/down/replaceper@ttn/devices/dev1/down/replace" /\
    replace_trailing "v3/upper@ttn/devices/dev1/up" "/up" "/down/replace"
    = "v3/upper@ttn/devices/dev1/down/replace" /\
    t <> replace_trailing "v3/upper@ttn/devices/dev1/up" "/up" "/down/replace".
Proof.
  do 2 eexists. split; [reflexivity|]. split; [reflexivity|]. split; [reflexivity|].
  vm_compute. discriminate.
Qed.

(** ** Malformed envelopes (lines 238-251 and 283-296) *)

Lemma unsupported_int (port : Z) :
  unsupported (JInt port) = true <-> port <> 1 /\ port <> 11.
Proof.
  unfold unsupported, json_eq_int. cbn [as_num py_eq_int].
  rewrite andb_true_iff, !negb_true_iff, !Z.eqb_neq. reflexivity.
Qed.

(** A body that is not JSON is dropped by either parser. *)
Lemma not_json_no_downlink {L : PyLib} (t : parser_type) (config : Config)
  (topic payload : string) :
  json_loads payload = None ->
  parser t config topic payload = Ok NoDownlink /\
  mqtt_on_message t config topic payload = Ok None.
Proof.
  intros H.
  assert (P : parser t config topic payload = Ok NoDownlink)
    by (destruct t; cbn [parser]; [unfold parser_tts3 | unfold parser_cs34];
        rewrite H; reflexivity).
  split; [exact P|]. unfold mqtt_on_message. rewrite P. reflexivity.
Qed.

Lemma not_json_no_downlink_witness :
  mqtt_on_message TheThingsStack_v3 config_default "v3/app@ttn/devices/dev1/up"
    "not json" = Ok None /\
  mqtt_on_message ChirpStack_v3plus config_default
    "application/123/device/ABC/event/up" "not json" = Ok None.
Proof.
  split.
  - apply (not_json_no_downlink (L := example_lib) TheThingsStack_v3 config_default
             "v3/app@ttn/devices/dev1/up" "not json" eq_refl).
  - apply (not_json_no_downlink (L := example_lib) ChirpStack_v3plus config_default
             "application/123/device/ABC/event/up" "not json" eq_refl).
Defined.

(** An object without [uplink_message] is dropped by the TTS3 parser. *)
Lemma tts3_not_an_uplink {L : PyLib} (config : Config) (topic payload : string)
  (d : list (string * json)) :
  json_loads payload = Some (JObj d) ->
  lookup "uplink_message" d = None ->
  parser_tts3 config topic payload = Ok NoDownlink.
Proof.
  intros H Hu. unfold parser_tts3. rewrite H. cbn [py_in bind]. rewrite Hu. reflexivity.
Qed.

(** A port other than 1 and 11 is dropped by either parser, whatever else the
    envelope holds. *)
Lemma unsupported_port_no_downlink {L : PyLib} (config : Config)
  (topic payload : string) (d um : list (string * json)) (port : Z) :
  json_loads payload = Some (JObj d) ->
  port <> 1 /\ port <> 11 ->
  (lookup "uplink_message" d = Some (JObj um) ->
   lookup "f_port" um = Some (JInt port) ->
   parser_tts3 config topic payload = Ok NoDownlink) /\
  (lookup "fPort" d = Some (JInt port) ->
   parser_cs34 config topic payload = Ok NoDownlink).
Proof.
  intros H Hp. apply unsupported_int in Hp. split.
  - intros Hu Hf. unfold parser_tts3. rewrite H. cbn [py_in py_item bind].
    rewrite Hu. cbn [negb py_item bind]. rewrite Hf. cbn [bind]. rewrite Hp. reflexivity.
  - intros Hf. unfold parser_cs34. rewrite H. cbn [py_in py_get bind].
    rewrite Hf. cbn [bind]. rewrite Hp. reflexivity.
Qed.

Lemma unsupported_port_no_downlink_witness :
  parser_tts3 config_default "v3/app@ttn/devices/dev1/up" (body tts3_port5)
  = Ok NoDownlink /\
  parser_cs34 config_default "application/123/device/ABC/event/up" (body cs34_port5)
  = Ok NoDownlink.
Proof.
  assert (P : 5 <> 1 /\ 5 <> 11) by lia.
  split.
  - destruct (unsupported_port_no_downlink (L := example_lib) config_default
                "v3/app@ttn/devices/dev1/up" (body tts3_port5)
                (members_of tts3_port5) [("f_port", JInt 5)] 5 eq_refl P) as [H _].
    apply (H eq_refl eq_refl).
  - destruct (unsupported_port_no_downlink (L := example_lib) config_default
                "application/123/device/ABC/event/up" (body cs34_port5)
                (members_of cs34_port5) [] 5 eq_refl P) as [_ H].
    apply (H eq_refl).
Defined.

(** C3: what the code does. A JSON object that lacks a required field other
    than [uplink_message] (TTS3) or [fPort] (ChirpStack) is not dropped: the
    subscript raises [KeyError], which neither parser catches and which
    leaves [mqtt_on_message].  So it is for a TTS3 uplink without [f_port],
    and for an uplink on port 1 or 11 without its frame counter in either
    variant. *)
Theorem missing_field_raises {L : PyLib} (config : Config) (topic payload : string)
  (d : list (string * json)) :
  json_loads payload = Some (JObj d) ->
  (forall um,
     lookup "uplink_message" d = Some (JObj um) ->
     lookup "f_port" um = None ->
     parser_tts3 config topic payload = Raise KeyError /\
     mqtt_on_message TheThingsStack_v3 config topic payload = Raise KeyError) /\
  (forall um port,
     lookup "uplink_message" d = Some (JObj um) ->
     lookup "f_port" um = Some port -> unsupported port = false ->
     lookup "f_cnt" um = None ->
     parser_tts3 config topic payload = Raise KeyError /\
     mqtt_on_message TheThingsStack_v3 config topic payload = Raise KeyError) /\
  (forall port,
     lookup "fPort" d = Some port -> unsupported port = false ->
     lookup "fCnt" d = None ->
     parser_cs34 config topic payload = Raise KeyError /\
     mqtt_on_message ChirpStack_v3plus config topic payload = Raise KeyError).
Proof.
  intros H.
  assert (M : forall t, parser t config topic payload = Raise KeyError ->
                        parser t config topic payload = Raise KeyError /\
                        mqtt_on_message t config topic payload = Raise KeyError).
  { intros t P. split; [exact P|]. unfold mqtt_on_message. rewrite P. reflexivity. }
  split; [|split].
  - intros um Hu Hf. apply (M TheThingsStack_v3). cbn [parser].
    unfold parser_tts3. rewrite H. cbn [py_in py_item bind].
    rewrite Hu. cbn [negb py_item bind]. rewrite Hf. reflexivity.
  - intros um port Hu Hf Hp Hc. apply (M TheThingsStack_v3). cbn [parser].
    unfold parser_tts3. rewrite H. cbn [py_in py_item bind].
    rewrite Hu. cbn [negb py_item bind]. rewrite Hf. cbn [bind]. rewrite Hp, Hc.
    reflexivity.
  - intros port Hf Hp Hc. apply (M ChirpStack_v3plus). cbn [parser].
    unfold parser_cs34. rewrite H. cbn [py_in py_get py_item bind].
    rewrite Hf. cbn [bind]. rewrite Hp, Hc. reflexivity.
Qed.

Lemma missing_field_raises_witness :
  mqtt_on_message TheThingsStack_v3 config_default
    "v3/app@ttn/devices/dev1/up" (body tts3_no_f_port) = Raise KeyError /\
  mqtt_on_message TheThingsStack_v3 config_default
    "v3/app@ttn/devices/dev1/up" (body tts3_no_f_cnt) = Raise KeyError /\
  mqtt_on_message ChirpStack_v3plus config_default
    "application/123/device/ABC/event/up" (body cs34_no_fCnt) = Raise KeyError.
Proof.
  split; [|split].
  - destruct (missing_field_raises (L := example_lib) config_default "v3/app@ttn/devices/dev1/up"
                (body tts3_no_f_port) (members_of tts3_no_f_port) eq_refl) as (H & _ & _).
    apply (H _ eq_refl eq_refl).
  - destruct (missing_field_raises (L := example_lib) config_default "v3/app@ttn/devices/dev1/up"
                (body tts3_no_f_cnt) (members_of tts3_no_f_cnt) eq_refl) as (_ & H & _).
    apply (H _ (JInt 1) eq_refl eq_refl eq_refl eq_refl).
  - destruct (missing_field_raises (L := example_lib) config_default "application/123/device/ABC/event/up"
                (body cs34_no_fCnt) (members_of cs34_no_fCnt) eq_refl) as (_ & _ & H).
    apply (H (JInt 11) eq_refl eq_refl eq_refl).
Defined.

(** C10, as the code has it. For a body that parses to a JSON OBJECT with no
    [fPort] key, [parser_cs34] takes port 0, which is neither 1 nor 11, and
    returns "no downlink"; no exception is raised and nothing is
    published. *)
Theorem cs34_missing_fPort {L : PyLib} (config : Config) (topic payload : string)
  (d : list (string * json)) :
  json_loads payload = Some (JObj d) ->
  lookup "fPort" d = None ->
  py_get (JObj d) "fPort" (JInt 0) = Ok (JInt 0) /\
  unsupported (JInt 0) = true /\
  parser_cs34 config topic payload = Ok NoDownlink /\
  mqtt_on_message ChirpStack_v3plus config topic payload = Ok None.
Proof.
  intros H Hf.
  assert (G : py_get (JObj d) "fPort" (JInt 0) = Ok (JInt 0))
    by (cbn [py_get]; rewrite Hf; reflexivity).
  assert (P : parser_cs34 config topic payload = Ok NoDownlink).
  { unfold parser_cs34. rewrite H. cbn [py_in bind]. rewrite G. reflexivity. }
  split; [exact G|]. split; [reflexivity|]. split; [exact P|].
  unfold mqtt_on_message. cbn [parser]. rewrite P. reflexivity.
Qed.

Lemma cs34_missing_fPort_witness :
  parser_cs34 config_default "application/123/device/ABC/event/up" (body cs34_no_fPort)
  = Ok NoDownlink.
Proof.
  apply (cs34_missing_fPort (L := example_lib) config_default "application/123/device/ABC/event/up"
           (body cs34_no_fPort) (members_of cs34_no_fPort) eq_refl eq_refl).
Defined.

(** C10 as stated fails: the bodies [[]] and [5] are valid JSON and hold no
    [fPort] field, yet [parser_cs34] raises on them ([list] has no [get];
    [in] does not apply to an int). *)
Lemma cs34_non_object_raises :
  json_loads (body (JArr [])) = Some (JArr []) /\
  parser_cs34 config_default "application/123/device/ABC/event/up" (body (JArr []))
  = Raise AttributeError /\
  json_loads (body (JInt 5)) = Some (JInt 5) /\
  parser_cs34 config_default "application/123/device/ABC/event/up" (body (JInt 5))
  = Raise TypeError /\
  mqtt_on_message ChirpStack_v3plus config_default
    "application/123/device/ABC/event/up" (body (JArr [])) = Raise AttributeError.
Proof. repeat split. Qed.

(** ** The rounded quotient on binary64 *)

Lemma all_from_spec (p : Z -> bool) (n : nat) :
  forall x, FloatModel.all_from p x n = true ->
  forall y, x <= y < x + Z.of_nat n -> p y = true.
Proof.
  induction n as [|n IH]; intros x H y Hy; [lia|].
  cbn [FloatModel.all_from] in H. apply andb_true_iff in H. destruct H as [Hx Hrest].
  destruct (Z.eq_dec y x) as [-> | Hne]; [exact Hx|].
  apply (IH (x + 1) Hrest). lia.
Qed.

Lemma agrees_eq (d x : Z) :
  FloatModel.agrees d x = true -> FloatModel.round_div_float x d = Ok (round_div x d).
Proof.
  unfold FloatModel.agrees. destruct (FloatModel.round_div_float x d) as [r|e]; [|discriminate].
  intros H. apply Z.eqb_eq in H. rewrite H. reflexivity.
Qed.

Lemma port1_range : FloatModel.all_from (FloatModel.agrees 250) 0 (Z.to_nat 8192) = true.
Proof. vm_compute. reflexivity. Qed.

Lemma port11_range : FloatModel.all_from (FloatModel.agrees 10) 0 (Z.to_nat 8192) = true.
Proof. vm_compute. reflexivity. Qed.

Lemma round_div_float_250 (x : Z) :
  0 <= x < 8192 -> FloatModel.round_div_float x 250 = Ok (round_div x 250).
Proof.
  intros H. apply agrees_eq, (all_from_spec _ _ _ port1_range). lia.
Qed.

Lemma round_div_float_10 (x : Z) :
  0 <= x < 8192 -> FloatModel.round_div_float x 10 = Ok (round_div x 10).
Proof.
  intros H. apply agrees_eq, (all_from_spec _ _ _ port11_range). lia.
Qed.

Lemma round_div_float_sentinel :
  FloatModel.round_div_float 1000000 250 = Ok (round_div 1000000 250) /\
  FloatModel.round_div_float 1000000 10 = Ok (round_div 1000000 10) /\
  FloatModel.round_div_float 12345 10 = Ok 1234.
Proof. repeat split. Qed.


Lemma round_div_float_10_witness :
  FloatModel.round_div_float 1235 10 = Ok 124 /\
  FloatModel.round_div_float 1245 10 = Ok 124.
Proof.
  split.
  - apply (round_div_float_10 1235). lia.
  - apply (round_div_float_10 1245). lia.
Defined.

(** ** The whole pipeline on an uplink without gateway locations

    With a valid fix and no located gateway the distances stay at their
    initial values, and port 1 reports them as 128 and 1. *)
Lemma process_no_location_example :
  exists out,
    process payload_fix (JInt 1) (JInt 300) gateways_no_location config_default = Ok out /\
    has_gps (fix_ out) = true /\
    min_distance (agg out) = 1000000 /\ max_distance (agg out) = 0 /\
    min_rssi (agg out) = PInt (-80) /\ max_rssi (agg out) = PInt (-60) /\
    buffer out = Some [PInt 44; PInt 120; PInt 140; PInt 128; PInt 1; PInt 2].
Proof. eexists. repeat split. Qed.

(** * Further properties of the code *)

(** ** The decoder on any payload (lines 158-172) *)

Lemma decode_ok_length (data : list byte) (gps : GpsFix) :
  decode data = Ok gps -> (10 <= List.length data)%nat.
Proof.
  intros H. destruct (Nat.le_gt_cases 10 (List.length data)) as [G|G]; [exact G|].
  rewrite decode_short in H by exact G. discriminate H.
Qed.

Lemma byte_at_app (data extra : list byte) (i : nat) :
  (i < List.length data)%nat -> byte_at (data ++ extra) i = byte_at data i.
Proof. intros H. unfold byte_at. rewrite app_nth1 by exact H. reflexivity. Qed.

(** A payload longer than ten bytes is accepted, and what follows the tenth
    byte is never read: the fix is that of the first ten bytes. *)
Theorem decode_ignores_tail (data extra : list byte) :
  (10 <= List.length data)%nat ->
  decode (data ++ extra) = decode data /\
  decode data = decode (firstn 10 data) /\
  exists gps, decode data = Ok gps.
Proof.
  intros H.
  assert (A : forall d e, (10 <= List.length d)%nat -> decode (d ++ e) = decode d).
  { intros d e Hd. rewrite !decode_total by (rewrite ?length_app; lia).
    unfold fix_of. rewrite !byte_at_app by lia. reflexivity. }
  split; [apply A; exact H|]. split.
  - rewrite <- (firstn_skipn 10 data) at 1. apply A.
    rewrite length_firstn. lia.
  - exists (fix_of data). apply decode_total. exact H.
Qed.

Lemma decode_ignores_tail_witness :
  decode (payload_fix ++ [xff; xff]%byte) = decode payload_fix.
Proof.
  apply (decode_ignores_tail payload_fix [xff; xff]%byte). cbn. lia.
Defined.

(** The coordinates are present exactly when the fix is valid; the
    satellite count is a byte, and an altitude lies between -1000 and
    64535 m. *)
Theorem decode_position_iff_fix (data : list byte) (gps : GpsFix) :
  decode data = Ok gps ->
  (has_gps gps = true <-> position gps <> None) /\
  0 <= sats gps <= 255 /\
  (forall p, position gps = Some p -> -1000 <= altitude p <= 64535).
Proof.
  intros H. pose proof (decode_ok_length _ _ H) as Hlen.
  rewrite decode_total in H by exact Hlen. injection H as <-.
  assert (B : forall i, 0 <= byte_at data i < 256) by (intros i; apply byte_val_bounds).
  unfold fix_of.
  destruct (PrimFloat.leb (int_truediv (byte_at data 8) 10) 2 && (5 <=? byte_at data 9));
    cbn [has_gps position sats].
  - split; [split; [discriminate | reflexivity]|].
    split; [pose proof (B 9%nat); lia|].
    intros [la lo al ac] Hp. cbn [altitude].
    assert (E : al = Z.shiftl (byte_at data 6) 8 + byte_at data 7 - 1000) by congruence.
    rewrite E, Z.shiftl_mul_pow2 by lia.
    pose proof (B 6%nat). pose proof (B 7%nat). lia.
  - split; [split; [discriminate | intros G; exfalso; apply G; reflexivity]|].
    split; [pose proof (B 9%nat); lia|].
    intros p [=].
Qed.

Lemma decode_position_iff_fix_witness :
  position (fix_of payload_fix) <> None /\ 0 <= sats (fix_of payload_fix) <= 255.
Proof.
  destruct (decode_position_iff_fix payload_fix (fix_of payload_fix) eq_refl)
    as (H & S & _).
  split; [apply H; reflexivity | exact S].
Defined.

(** ** The aggregator on any gateway list (lines 175-192) *)

(** Unfolding a computation that returned normally, one bind or test at a
    time. *)
Ltac unbind H :=
  repeat (cbn [bind] in H;
          match type of H with
          | bind ?c _ = Ok _ =>
              let E := fresh "E" in destruct c eqn:E; [|discriminate H]
          | (if ?b then _ else _) = Ok _ =>
              let E := fresh "E" in destruct b eqn:E
          | match ?x with _ => _ end = Ok _ =>
              let E := fresh "E" in destruct x eqn:E; try discriminate H
          end).

(** What one turn of the loop does when it does not raise. *)
Lemma aggregate_step_inv {L : PyLib} (gps : GpsFix) (a a' : Aggregate) (g : json) :
  aggregate_step gps a g = Ok a' ->
  exists d n1 n2,
    g = JObj d /\
    num_of (match lookup "rssi" d with Some x => x | None => JInt MAX_RSSI end) = Ok n1 /\
    num_of (match lookup "rssi" d with Some x => x | None => JInt MIN_RSSI end) = Ok n2 /\
    num_gateways a' = num_gateways a /\
    min_rssi a' = py_min (min_rssi a) n1 /\
    max_rssi a' = py_max (max_rssi a) n2 /\
    ((min_distance a' = min_distance a /\ max_distance a' = max_distance a) \/
     (has_gps gps = true /\
      exists dist, min_distance a' = Z.min (min_distance a) dist /\
                   max_distance a' = Z.max (max_distance a) dist)).
Proof.
  unfold aggregate_step. intros H.
  destruct g as [| | | | |items|d]; try discriminate H.
  cbn [py_get] in H.
  set (r1 := match lookup "rssi" d with Some x => x | None => JInt MAX_RSSI end).
  set (r2 := match lookup "rssi" d with Some x => x | None => JInt MIN_RSSI end).
  assert (H' :
    (n1 <- num_of r1 ;;
     n2 <- num_of r2 ;;
     (if has_gps gps then
        loc <- py_get (JObj d) "location" (JObj []) ;;
        lat <- py_get loc "latitude" JNull ;;
        lon <- py_get loc "longitude" JNull ;;
        (if negb (is_None lat) && negb (is_None lon) then
           match position gps with
           | None => Raise TypeError
           | Some pos =>
               dd <- circleDistance pos lat lon ;;
               distance <- py_int dd ;;
               Ok {| num_gateways := num_gateways a;
                     min_distance := Z.min (min_distance a) distance;
                     max_distance := Z.max (max_distance a) distance;
                     min_rssi := py_min (min_rssi a) n1;
                     max_rssi := py_max (max_rssi a) n2 |}
           end
         else Ok {| num_gateways := num_gateways a;
                    min_distance := min_distance a; max_distance := max_distance a;
                    min_rssi := py_min (min_rssi a) n1;
                    max_rssi := py_max (max_rssi a) n2 |})
      else Ok {| num_gateways := num_gateways a;
                 min_distance := min_distance a; max_distance := max_distance a;
                 min_rssi := py_min (min_rssi a) n1;
                 max_rssi := py_max (max_rssi a) n2 |})) = Ok a').
  { subst r1 r2. destruct (lookup "rssi" d); exact H. }
  clear H.
  destruct (num_of r1) as [n1|] eqn:E1; [|discriminate H'].
  destruct (num_of r2) as [n2|] eqn:E2; [|discriminate H'].
  cbn [bind] in H'.
  exists d, n1, n2. split; [reflexivity|]. split; [exact E1|]. split; [exact E2|].
  unbind H'; injection H' as <-; cbn [num_gateways min_rssi max_rssi min_distance max_distance];
    repeat split; try (left; split; reflexivity).
  right. split; [reflexivity|]. eexists. split; reflexivity.
Qed.

Lemma py_min_int (m z : Z) : py_min (PInt m) (PInt z) = PInt (Z.min m z).
Proof.
  unfold py_min, py_lt. destruct (z <? m) eqn:E.
  - apply Z.ltb_lt in E. rewrite Z.min_r by lia. reflexivity.
  - apply Z.ltb_ge in E. rewrite Z.min_l by lia. reflexivity.
Qed.

Lemma py_max_int (m z : Z) : py_max (PInt m) (PInt z) = PInt (Z.max m z).
Proof.
  unfold py_max, py_lt. destruct (m <? z) eqn:E.
  - apply Z.ltb_lt in E. rewrite Z.max_r by lia. reflexivity.
  - apply Z.ltb_ge in E. rewrite Z.max_l by lia. reflexivity.
Qed.

Lemma fold_min_le (rs : list Z) :
  forall m, fold_left Z.min rs m <= m /\ (forall r, In r rs -> fold_left Z.min rs m <= r).
Proof.
  induction rs as [|x rs IH]; intros m; cbn [fold_left].
  - split; [lia | intros r []].
  - destruct (IH (Z.min m x)) as [A B]. split; [lia|].
    intros r [<- | Hr]; [lia | apply B; exact Hr].
Qed.

Lemma fold_max_ge (rs : list Z) :
  forall m, m <= fold_left Z.max rs m /\ (forall r, In r rs -> r <= fold_left Z.max rs m).
Proof.
  induction rs as [|x rs IH]; intros m; cbn [fold_left].
  - split; [lia | intros r []].
  - destruct (IH (Z.max m x)) as [A B]. split; [lia|].
    intros r [<- | Hr]; [lia | apply B; exact Hr].
Qed.

Lemma aggregate_loop_signals {L : PyLib} (gps : GpsFix) (gateways : list json) :
  forall (rs : list Z) (a0 a : Aggregate) (m M : Z),
    int_rssis gateways = Some rs ->
    min_rssi a0 = PInt m -> max_rssi a0 = PInt M -> m <= 200 -> -200 <= M ->
    aggregate_loop gps a0 gateways = Ok a ->
    num_gateways a = num_gateways a0 /\
    min_rssi a = PInt (fold_left Z.min rs m) /\
    max_rssi a = PInt (fold_left Z.max rs M).
Proof.
  induction gateways as [|g rest IH]; intros rs a0 a m M Hrs Hm HM Bm BM H.
  - injection Hrs as <-. injection H as <-. cbn [fold_left]. auto.
  - cbn [aggregate_loop] in H.
    destruct (aggregate_step gps a0 g) as [a1|] eqn:Hstep; [|discriminate H].
    cbn [bind] in H.
    apply aggregate_step_inv in Hstep.
    destruct Hstep as (d & n1 & n2 & -> & Hn1 & Hn2 & Hnum & Hlo & Hhi & _).
    cbn [int_rssis rssi_int] in Hrs.
    destruct (lookup "rssi" d) as [v|] eqn:Hl.
    + destruct v; try discriminate Hrs.
      destruct (int_rssis rest) as [rs'|] eqn:Hrest; [|discriminate Hrs].
      injection Hrs as <-.
      injection Hn1 as <-. injection Hn2 as <-.
      rewrite Hm, py_min_int in Hlo. rewrite HM, py_max_int in Hhi.
      destruct (IH rs' a1 a (Z.min m z) (Z.max M z) eq_refl Hlo Hhi ltac:(lia) ltac:(lia) H)
        as (A & B & C).
      cbn [fold_left]. rewrite A, Hnum. auto.
    + destruct (int_rssis rest) as [rs'|] eqn:Hrest; [|discriminate Hrs].
      injection Hrs as <-.
      injection Hn1 as <-. injection Hn2 as <-.
      rewrite Hm, py_min_int in Hlo. rewrite HM, py_max_int in Hhi.
      unfold MAX_RSSI in Hlo. unfold MIN_RSSI in Hhi.
      rewrite Z.min_l in Hlo by lia. rewrite Z.max_l in Hhi by lia.
      destruct (IH rs' a1 a m M eq_refl Hlo Hhi Bm BM H) as (A & B & C).
      rewrite A, Hnum. auto.
Qed.

(** When every gateway record is an object whose [rssi] is an int or left
    out, an aggregation that returns counts the records and reports the
    smallest and largest signal, never above 200 nor below -200; a record
    without [rssi] changes neither. *)
Theorem aggregate_signals {L : PyLib} (gps : GpsFix) (gateways : list json)
  (rs : list Z) (a : Aggregate) :
  int_rssis gateways = Some rs ->
  aggregate gps (JArr gateways) = Ok a ->
  num_gateways a = Z.of_nat (List.length gateways) /\
  min_rssi a = PInt (fold_left Z.min rs 200) /\
  max_rssi a = PInt (fold_left Z.max rs (-200)) /\
  fold_left Z.min rs 200 <= 200 /\ -200 <= fold_left Z.max rs (-200) /\
  (forall r, In r rs -> fold_left Z.min rs 200 <= r <= fold_left Z.max rs (-200)).
Proof.
  intros Hrs H. unfold aggregate in H. cbn [py_iter bind] in H.
  destruct (aggregate_loop_signals gps gateways rs
              (aggregate_init gps (Z.of_nat (List.length gateways))) a 200 (-200)
              Hrs eq_refl eq_refl ltac:(lia) ltac:(lia) H) as (A & B & C).
  destruct (fold_min_le rs 200) as [D E]. destruct (fold_max_ge rs (-200)) as [F G].
  repeat split; try assumption; [apply E | apply G]; assumption.
Qed.

Lemma aggregate_signals_witness :
  exists a,
    aggregate (fix_of payload_fix) gateways_no_location = Ok a /\
    num_gateways a = 2 /\ min_rssi a = PInt (-80) /\ max_rssi a = PInt (-60).
Proof.
  eexists. split; [reflexivity|].
  destruct (aggregate_signals (L := example_lib) (fix_of payload_fix)
              [JObj [("rssi", JInt (-80))]; JObj [("rssi", JInt (-60))]]
              [-80; -60] _ eq_refl eq_refl) as (A & B & C & _).
  split; [exact A|]. split; [exact B | exact C].
Defined.

Lemma aggregate_loop_distances {L : PyLib} (gps : GpsFix) (gateways : list json) :
  forall a0 a : Aggregate,
    aggregate_loop gps a0 gateways = Ok a ->
    (has_gps gps = false ->
     min_distance a = min_distance a0 /\ max_distance a = max_distance a0) /\
    ((min_distance a0 = 1000000 /\ max_distance a0 = 0) \/
     (min_distance a0 <= max_distance a0 /\ min_distance a0 <= 1000000 /\
      0 <= max_distance a0) ->
     (min_distance a = 1000000 /\ max_distance a = 0) \/
     (min_distance a <= max_distance a /\ min_distance a <= 1000000 /\
      0 <= max_distance a)).
Proof.
  induction gateways as [|g rest IH]; intros a0 a H.
  - injection H as <-. auto.
  - cbn [aggregate_loop] in H.
    destruct (aggregate_step gps a0 g) as [a1|] eqn:Hstep; [|discriminate H].
    cbn [bind] in H. apply aggregate_step_inv in Hstep.
    destruct Hstep as (d & n1 & n2 & _ & _ & _ & _ & _ & _ & Hd).
    destruct (IH a1 a H) as [A B]. split.
    + intros Hg. destruct (A Hg) as [A1 A2].
      destruct Hd as [[D1 D2] | [Hg' _]]; [|congruence]. lia.
    + intros Inv. apply B.
      destruct Hd as [[D1 D2] | [_ (dist & D1 & D2)]]; lia.
Qed.

(** The distances an aggregation returns: both 0 without a fix; with a fix,
    either still the initial 1,000,000 and 0 (no gateway gave a distance) or
    a minimum that is at most the maximum, at most 1,000,000, with a maximum
    that is not negative. *)
Theorem aggregate_distances {L : PyLib} (gps : GpsFix) (gateways : json)
  (a : Aggregate) :
  aggregate gps gateways = Ok a ->
  (has_gps gps = false -> min_distance a = 0 /\ max_distance a = 0) /\
  (has_gps gps = true ->
   (min_distance a = 1000000 /\ max_distance a = 0) \/
   (min_distance a <= max_distance a /\ min_distance a <= 1000000 /\
    0 <= max_distance a)).
Proof.
  unfold aggregate. intros H.
  destruct (py_iter gateways) as [items|]; [|discriminate H]. cbn [bind] in H.
  destruct (aggregate_loop_distances gps items _ a H) as [A B].
  unfold aggregate_init in A, B. cbn [min_distance max_distance] in A, B.
  split; intros Hg; rewrite Hg in *.
  - apply A. reflexivity.
  - apply B. left. split; reflexivity.
Qed.

Lemma aggregate_distances_witness :
  exists a,
    aggregate (fix_of payload_fix) gateways_no_location = Ok a /\
    ((min_distance a = 1000000 /\ max_distance a = 0) \/
     (min_distance a <= max_distance a /\ min_distance a <= 1000000 /\
      0 <= max_distance a)).
Proof.
  eexists. split; [reflexivity|].
  apply (aggregate_distances (L := example_lib) (fix_of payload_fix)
           gateways_no_location _ eq_refl). reflexivity.
Defined.

(** One turn of the loop on a record of the usual shape without a usable
    location: signals folded, distances untouched, no [math] call. *)
Lemma aggregate_step_plain {L : PyLib} (gps : GpsFix) (a : Aggregate) (g : json)
  (m M : Z) :
  plain_gateway g = true ->
  min_rssi a = PInt m -> max_rssi a = PInt M ->
  exists m' M',
    aggregate_step gps a g
    = Ok {| num_gateways := num_gateways a;
            min_distance := min_distance a; max_distance := max_distance a;
            min_rssi := PInt m'; max_rssi := PInt M' |}.
Proof.
  unfold plain_gateway, rssi_int, unlocated, absent, aggregate_step.
  intros Hp Hm HM. destruct g as [| | | | |items|d]; try discriminate Hp.
  cbn [py_get].
  assert (R : exists m' M',
    (r1 <- Ok (match lookup "rssi" d with Some x => x | None => JInt MAX_RSSI end) ;;
     n1 <- num_of r1 ;;
     r2 <- Ok (match lookup "rssi" d with Some x => x | None => JInt MIN_RSSI end) ;;
     n2 <- num_of r2 ;;
     Ok (py_min (min_rssi a) n1, py_max (max_rssi a) n2)) = Ok (PInt m', PInt M')).
  { rewrite Hm, HM. destruct (lookup "rssi" d) as [v|]; [destruct v; try discriminate Hp|];
      cbn [bind num_of as_num]; rewrite py_min_int, py_max_int; eauto. }
  destruct R as (m' & M' & R). exists m', M'.
  destruct (lookup "rssi" d) as [v|]; [destruct v; try discriminate Hp|];
    cbn [bind num_of as_num] in R |- *; injection R as -> ->;
    (destruct (has_gps gps); [|reflexivity]);
    (destruct (lookup "location" d) as [loc|]; [|reflexivity]);
    (destruct loc as [| | | | | |l]; try discriminate Hp);
    cbn [py_get bind];
    destruct (lookup "latitude" l) as [[]|]; destruct (lookup "longitude" l) as [[]|];
    try discriminate Hp; reflexivity.
Qed.

Lemma aggregate_loop_plain {L : PyLib} (gps : GpsFix) (gateways : list json) :
  forallb plain_gateway gateways = true ->
  forall (a0 : Aggregate) (m M : Z),
    min_rssi a0 = PInt m -> max_rssi a0 = PInt M ->
    exists m' M',
      aggregate_loop gps a0 gateways
      = Ok {| num_gateways := num_gateways a0;
              min_distance := min_distance a0; max_distance := max_distance a0;
              min_rssi := PInt m'; max_rssi := PInt M' |}.
Proof.
  induction gateways as [|g rest IH]; intros Hp a0 m M Hm HM.
  - exists m, M. cbn [aggregate_loop]. destruct a0; cbn in *. subst. reflexivity.
  - cbn [forallb] in Hp. apply andb_true_iff in Hp. destruct Hp as [Hg Hrest].
    destruct (aggregate_step_plain gps a0 g m M Hg Hm HM) as (m1 & M1 & Hstep).
    cbn [aggregate_loop]. rewrite Hstep. cbn [bind].
    destruct (IH Hrest
                {| num_gateways := num_gateways a0;
                   min_distance := min_distance a0; max_distance := max_distance a0;
                   min_rssi := PInt m1; max_rssi := PInt M1 |}
                m1 M1 eq_refl eq_refl) as (m' & M' & Hloop).
    exists m', M'. rewrite Hloop. reflexivity.
Qed.

Ltac byte_range :=
  eexists; (split; [reflexivity|]);
  first
    [ apply hi_lo_bytes
    | match goal with
      | |- 0 <= ?x mod 256 <= 255 =>
          pose proof (Z.mod_pos_bound x 256 ltac:(lia)); lia
      end
    | match goal with
      | |- context [constrain ?v ?l ?h] =>
          pose proof (constrain_bounds v l h ltac:(lia));
          match goal with |- context [if ?b then _ else _] => destruct b end; lia
      end ].

Lemma encode_bytes (hasFix : bool) (a : Aggregate) (port s : Z) (buf : list pynum) :
  port = 1 \/ port = 11 ->
  encode hasFix a (JInt port) (JInt s) = Ok (Some buf) ->
  Forall is_byte buf /\ List.length buf = (if (port =? 1)%Z then 6%nat else 8%nat).
Proof.
  intros [-> | ->] H;
    [apply encode_port1_inv in H | apply encode_port11_inv in H];
    destruct H as (n & lo & hi & Hn & Hlo & Hhi & Hb); cbv zeta in Hb; subst buf;
    injection Hn as <-; apply rssi_byte_is_byte in Hlo, Hhi;
    (split; [|reflexivity]);
    repeat constructor; try assumption; cbn [py_mod256]; byte_range.
Qed.

Lemma process_plain_gateways {L : PyLib} (data : list byte) (port s : Z)
  (gateways : list json) (config : Config) :
  (10 <= List.length data)%nat ->
  port = 1 \/ port = 11 ->
  forallb plain_gateway gateways = true ->
  exists out buf bs,
    process data (JInt port) (JInt s) (JArr gateways) config = Ok out /\
    fix_ out = fix_of data /\
    num_gateways (agg out) = Z.of_nat (List.length gateways) /\
    min_distance (agg out) = (if has_gps (fix_ out) then 1000000 else 0) /\
    max_distance (agg out) = 0 /\
    buffer out = Some buf /\ py_bytes buf = Ok bs /\
    List.length buf = (if (port =? 1)%Z then 6%nat else 8%nat) /\
    (port = 1 ->
     field buf 3 = (if has_gps (fix_ out) then 128 else 0) /\
     field buf 4 = (if has_gps (fix_ out) then 1 else 0)) /\
    (port = 11 ->
     field16 buf 3 = (if has_gps (fix_ out) then 65535 else 0) /\
     field16 buf 5 = (if has_gps (fix_ out) then 1 else 0)).
Proof.
  intros Hlen Hport Hplain. unfold process.
  rewrite decode_total by exact Hlen. cbn [bind].
  unfold aggregate. cbn [py_iter bind].
  destruct (aggregate_loop_plain (fix_of data) gateways Hplain
              (aggregate_init (fix_of data) (Z.of_nat (List.length gateways)))
              200 (-200) eq_refl eq_refl) as (m & M & Hloop).
  rewrite Hloop. cbn [bind aggregate_init num_gateways min_distance max_distance].
  set (a := {| num_gateways := Z.of_nat (List.length gateways);
               min_distance := if has_gps (fix_of data) then MAX_DISTANCE else MIN_DISTANCE;
               max_distance := MIN_DISTANCE;
               min_rssi := PInt m; max_rssi := PInt M |}).
  assert (Hs : int_signals a) by (exists m, M; split; reflexivity).
  destruct (encode_int_signals (has_gps (fix_of data)) a port s Hport Hs) as [buf Hbuf].
  rewrite Hbuf. cbn [bind].
  destruct (encode_bytes _ _ _ _ _ Hport Hbuf) as [Hall Hlenb].
  destruct (py_bytes_of_bytes buf Hall) as [bs Hbs].
  exists {| fix_ := fix_of data; agg := a; buffer := Some buf |}, buf, bs.
  cbn [fix_ agg buffer a num_gateways min_distance max_distance].
  split; [reflexivity|]. split; [reflexivity|]. split; [reflexivity|].
  split; [destruct (has_gps (fix_of data)); reflexivity|].
  split; [reflexivity|]. split; [reflexivity|]. split; [exact Hbs|].
  split; [exact Hlenb|].
  split; intros ->.
  - apply encode_port1_inv in Hbuf.
    destruct Hbuf as (n & lo & hi & _ & _ & _ & ->).
    unfold field; cbn [nth_error a min_distance max_distance].
    destruct (has_gps (fix_of data)); split; reflexivity.
  - apply encode_port11_inv in Hbuf.
    destruct Hbuf as (n & lo & hi & _ & _ & _ & Hb). cbv zeta in Hb. subst buf.
    unfold field16, field; cbn [nth_error a min_distance max_distance].
    destruct (has_gps (fix_of data)); split; reflexivity.
Qed.

(** Ten bytes or more, port 1 or 11, an int frame counter and gateway
    records of the usual shape none of which has a usable location: [process]
    returns, whatever the [math] functions do, with a buffer of 6 or 8 bytes
    that [bytes] accepts.  With a fix the distances stay 1,000,000 and 0 and
    are sent as 128 and 1 (port 1) or 65535 and 1 (port 11); without one
    they are sent as 0. *)
Theorem process_unlocated {L : PyLib} (data : list byte) (port s : Z)
  (gateways : list json) (config : Config) :
  (10 <= List.length data)%nat ->
  port = 1 \/ port = 11 ->
  forallb plain_gateway gateways = true ->
  exists out buf bs,
    process data (JInt port) (JInt s) (JArr gateways) config = Ok out /\
    fix_ out = fix_of data /\
    num_gateways (agg out) = Z.of_nat (List.length gateways) /\
    min_distance (agg out) = (if has_gps (fix_ out) then 1000000 else 0) /\
    max_distance (agg out) = 0 /\
    buffer out = Some buf /\ py_bytes buf = Ok bs /\
    List.length buf = (if (port =? 1)%Z then 6%nat else 8%nat) /\
    (port = 1 ->
     field buf 3 = (if has_gps (fix_ out) then 128 else 0) /\
     field buf 4 = (if has_gps (fix_ out) then 1 else 0)) /\
    (port = 11 ->
     field16 buf 3 = (if has_gps (fix_ out) then 65535 else 0) /\
     field16 buf 5 = (if has_gps (fix_ out) then 1 else 0)).
Proof. apply process_plain_gateways. Qed.

Lemma process_unlocated_witness :
  exists out,
    process payload_fix (JInt 11) (JInt 300) gateways_no_location config_default = Ok out /\
    buffer out = Some [PInt 44; PInt 120; PInt 140; PInt 255; PInt 255; PInt 0; PInt 1;
                       PInt 2].
Proof.
  destruct (process_unlocated (L := example_lib) payload_fix 11 300
              [JObj [("rssi", JInt (-80))]; JObj [("rssi", JInt (-60))]] config_default
              ltac:(cbn; lia) (or_intror eq_refl) eq_refl) as (out & buf & bs & H & _).
  exists out. split; [exact H|].
  change gateways_no_location
    with (JArr [JObj [("rssi", JInt (-80))]; JObj [("rssi", JInt (-60))]]) in *.
  assert (E : Ok out = process payload_fix (JInt 11) (JInt 300)
                         (JArr [JObj [("rssi", JInt (-80))]; JObj [("rssi", JInt (-60))]])
                         config_default) by (symmetry; exact H).
  vm_compute in E. injection E as ->. reflexivity.
Defined.

(** ** The parsers on a well-formed uplink (lines 253-278 and 298-323) *)







(** ** The message handler and the topic (lines 266, 311, 348-355) *)

Lemma replace_from_nonempty (old new s : string) :
  s <> "" -> new <> "" -> replace_from old new O s <> "".
Proof.
  intros Hs Hn. destruct s as [|c s']; [congruence|]. cbn [replace_from].
  destruct (String.prefix old (String c s')); [|discriminate].
  destruct new as [|n new']; [congruence|]. discriminate.
Qed.

Lemma replace_from_absent (old new s : string) :
  str_contains old s = false -> replace_from old new O s = s.
Proof.
  induction s as [|c s' IH]; intros H; [reflexivity|].
  cbn [str_contains] in H. apply orb_false_iff in H. destruct H as [H1 H2].
  cbn [replace_from]. rewrite H1, (IH H2). reflexivity.
Qed.

Lemma parser_topic {L : PyLib} (t : parser_type) (config : Config)
  (topic payload t' p' : string) :
  parser t config topic payload = Ok (Downlink t' p') ->
  t' = match t with
       | TheThingsStack_v3 => str_replace topic "/up" "/down/replace"
       | ChirpStack_v3plus => str_replace topic "/event/up" "/command/down"
       end.
Proof.
  destruct t; cbn [parser]; [apply parser_tts3_topic | apply parser_cs34_topic].
Qed.

(** Once the body is decoded, and for a non-empty inbound topic, the handler
    passes on exactly what the parser returns. *)
Lemma mqtt_on_message_decoded {L : PyLib} (t : parser_type) (config : Config)
  (topic payload : string) :
  (topic <> "" ->
   forall t' p',
     mqtt_on_message t config topic payload = Ok (Some (t', p')) <->
     parser t config topic payload = Ok (Downlink t' p')) /\
  (mqtt_on_message t config topic payload = Ok None <->
   parser t config topic payload = Ok NoDownlink \/
   (topic = "" /\ exists p', parser t config topic payload = Ok (Downlink "" p'))) /\
  (forall e,
     mqtt_on_message t config topic payload = Raise e <->
     parser t config topic payload = Raise e) /\
  (topic = "" -> forall r, mqtt_on_message t config topic payload <> Ok (Some r)).
Proof.
  assert (N : forall t' p', parser t config topic payload = Ok (Downlink t' p') ->
                            topic <> "" -> t' <> "").
  { intros t' p' H Ht. apply parser_topic in H. subst t'.
    destruct t; apply replace_from_nonempty; try exact Ht; discriminate. }
  assert (E : forall t' p', parser t config topic payload = Ok (Downlink t' p') ->
                            topic = "" -> t' = "").
  { intros t' p' H Ht. apply parser_topic in H. subst t' topic. destruct t; reflexivity. }
  unfold mqtt_on_message.
  destruct (parser t config topic payload) as [[|t0 p0]|e0] eqn:P; cbn [bind].
  - split; [intros _ t' p'; split; discriminate|].
    split; [split; [left; reflexivity | reflexivity]|].
    split; [intros e; split; discriminate | intros _ r; discriminate].
  - destruct (String.eqb t0 "") eqn:Q.
    + apply String.eqb_eq in Q. subst t0.
      split; [intros Ht; exfalso; apply (N "" p0 eq_refl Ht); reflexivity|].
      split.
      * split; [intros _; right | reflexivity].
        split; [|exists p0; reflexivity].
        destruct topic as [|c rest]; [reflexivity|].
        exfalso. apply (N "" p0 eq_refl); [discriminate | reflexivity].
      * split; [intros e; split; discriminate | intros _ r; discriminate].
    + apply String.eqb_neq in Q.
      split; [intros _ t' p'; split; intros [= -> ->]; reflexivity|].
      split.
      * split; [discriminate|]. intros [H | [Ht (p' & H)]]; [discriminate H|].
        injection H as -> _. congruence.
      * split; [intros e; split; discriminate|].
        intros Ht r. exfalso. apply Q. apply (E t0 p0 eq_refl Ht).
  - split; [intros _ t' p'; split; discriminate|].
    split; [split; [discriminate | intros [H | [_ (p' & H)]]; discriminate H]|].
    split; [intros e; split; intros [= ->]; reflexivity | intros _ r; discriminate].
Qed.

Lemma utf8_valid_ascii (raw : list byte) :
  forallb (fun b => byte_val b <? 128) raw = true ->
  utf8_valid (map byte_val raw) = true.
Proof.
  induction raw as [|b raw IH]; [reflexivity|].
  cbn [forallb map utf8_valid]. intros H.
  apply andb_true_iff in H. destruct H as [H1 H2].
  rewrite H1. exact (IH H2).
Qed.

(** [mqtt_on_message] (lines 348-355), from the bytes of the message.  A body
    that is not well-formed UTF-8 raises [UnicodeDecodeError] and the parser
    is never asked; a body of ASCII bytes always decodes.  For a body that
    decodes and a non-empty inbound topic, the handler hands to
    [mqtt_client.publish] exactly the pair the parser returns for the decoded
    text, hands over nothing exactly when the parser returns "no downlink",
    and raises exactly the exceptions the parser raises.  For an empty
    inbound topic it never hands anything over. *)
Theorem mqtt_on_message_publishes {L : PyLib} (t : parser_type) (config : Config)
  (topic : string) (raw : list byte) :
  (utf8_decode raw = None ->
   mqtt_on_message_bytes t config topic raw = Raise UnicodeDecodeError) /\
  (forallb (fun b => byte_val b <? 128) raw = true ->
   utf8_decode raw = Some (string_of_list_byte raw)) /\
  (forall payload,
     utf8_decode raw = Some payload ->
     (topic <> "" ->
      forall t' p',
        mqtt_on_message_bytes t config topic raw = Ok (Some (t', p')) <->
        parser t config topic payload = Ok (Downlink t' p')) /\
     (mqtt_on_message_bytes t config topic raw = Ok None <->
      parser t config topic payload = Ok NoDownlink \/
      (topic = "" /\ exists p', parser t config topic payload = Ok (Downlink "" p'))) /\
     (forall e,
        mqtt_on_message_bytes t config topic raw = Raise e <->
        parser t config topic payload = Raise e) /\
     (topic = "" ->
      forall r, mqtt_on_message_bytes t config topic raw <> Ok (Some r))).
Proof.
  split; [|split].
  - intros H. unfold mqtt_on_message_bytes. rewrite H. reflexivity.
  - intros H. unfold utf8_decode. rewrite (utf8_valid_ascii raw H). reflexivity.
  - intros payload H. unfold mqtt_on_message_bytes. rewrite H.
    apply mqtt_on_message_decoded.
Qed.

Lemma mqtt_on_message_publishes_witness :
  mqtt_on_message_bytes ChirpStack_v3plus config_default
    "application/123/device/ABC/event/up" (list_byte_of_string (body cs34_uplink))
  = Ok (Some ("application/123/device/ABC/command/down",
              body (JObj [("confirmed", JBool false); ("fPort", JInt 12);
                          ("data", JStr "LHiM//8AAQI=");
                          ("devEui", JStr "0011223344556677")])))
  /\ mqtt_on_message_bytes ChirpStack_v3plus config_default
       "application/123/device/ABC/event/up" [x7b; xff; x7d]
     = Raise UnicodeDecodeError.
Proof.
  split.
  - destruct (mqtt_on_message_publishes (L := example_lib) ChirpStack_v3plus
                config_default "application/123/device/ABC/event/up"
                (list_byte_of_string (body cs34_uplink))) as (_ & _ & H).
    destruct (H (body cs34_uplink) eq_refl) as [H1 _].
    apply (H1 ltac:(discriminate)). reflexivity.
  - destruct (mqtt_on_message_publishes (L := example_lib) ChirpStack_v3plus
                config_default "application/123/device/ABC/event/up"
                [x7b; xff; x7d]) as (H & _).
    exact (H eq_refl).
Defined.

(** An inbound topic that does not hold the pattern is returned unchanged:
    the downlink goes out on the very topic the uplink came in on. *)
Theorem downlink_topic_unchanged {L : PyLib} (t : parser_type) (config : Config)
  (topic payload t' p' : string) :
  str_contains (match t with
                | TheThingsStack_v3 => "/up"
                | ChirpStack_v3plus => "/event/up"
                end) topic = false ->
  parser t config topic payload = Ok (Downlink t' p') ->
  t' = topic.
Proof.
  intros Hc H. apply parser_topic in H. subst t'.
  destruct t; unfold str_replace; apply replace_from_absent; exact Hc.
Qed.

Lemma downlink_topic_unchanged_witness :
  exists t' p',
    parser_cs34 config_default "application/123/device/ABC/up" (body cs34_uplink)
    = Ok (Downlink t' p') /\
    t' = "application/123/device/ABC/up".
Proof.
  do 2 eexists. split; [reflexivity|].
  eapply (downlink_topic_unchanged (L := example_lib) ChirpStack_v3plus config_default
            "application/123/device/ABC/up" (body cs34_uplink)); reflexivity.
Defined.

(** ** Telemetry (lines 195-206) *)

Lemma process_fix {L : PyLib} (data : list byte) (port sequence_id gateways : json)
  (config : Config) (out : Output) :
  process data port sequence_id gateways config = Ok out ->
  fix_ out = fix_of data /\ (10 <= List.length data)%nat.
Proof.
  unfold process. intros H.
  destruct (decode data) as [gps|] eqn:Hd; [|discriminate H]. cbn [bind] in H.
  pose proof (decode_ok_length _ _ Hd) as Hlen.
  rewrite decode_total in Hd by exact Hlen. injection Hd as <-.
  unbind H. injection H as <-. split; [reflexivity | exact Hlen].
Qed.

(** What a processed uplink hands to the telemetry sink: nothing unless
    publishing is on; otherwise 7 measurements without a fix and 11 with
    one, under distinct names, the four GPS coordinates being among them
    exactly when the fix is valid. *)
Theorem telemetry_measurements {L : PyLib} (data : list byte)
  (port sequence_id gateways : json) (config : Config) (out : Output) :
  process data port sequence_id gateways config = Ok out ->
  (publish config = false -> telemetry config (fix_ out) (agg out) = []) /\
  (publish config = true ->
   List.length (telemetry config (fix_ out) (agg out))
   = (if has_gps (fix_ out) then 11%nat else 7%nat) /\
   NoDup (map fst (telemetry config (fix_ out) (agg out))) /\
   (forall name,
      In name ["gps.latitude"; "gps.longitude"; "gps.altitude"; "gps.accuracy"] ->
      (In name (map fst (telemetry config (fix_ out) (agg out)))
       <-> has_gps (fix_ out) = true))).
Proof.
  intros H. destruct (process_fix _ _ _ _ _ _ H) as [Hf _]. rewrite Hf.
  unfold telemetry. split; intros Hp; rewrite Hp; [reflexivity|].
  unfold measurements, fix_of.
  destruct (PrimFloat.leb (int_truediv (byte_at data 8) 10) 2 && (5 <=? byte_at data 9));
    cbn [position has_gps app map fst List.length].
  - split; [reflexivity|]. split.
    + repeat constructor; cbn [In]; intuition discriminate.
    + intros name Hn. split; [reflexivity|]. intros _.
      cbn [In] in *. intuition.
  - split; [reflexivity|]. split.
    + repeat constructor; cbn [In]; intuition discriminate.
    + intros name Hn. split; [|discriminate].
      cbn [In] in *. intros Hin.
      destruct Hn as [<- | [<- | [<- | [<- | []]]]]; intuition discriminate.
Qed.

Lemma telemetry_measurements_witness :
  List.length (telemetry {| publish := true |} (fix_of payload_fix)
                 (aggregate_init (fix_of payload_fix) 0)) = 11%nat.
Proof.
  destruct (telemetry_measurements (L := example_lib) payload_fix (JInt 1) (JInt 300)
              (JArr []) {| publish := true |}
              {| fix_ := fix_of payload_fix;
                 agg := aggregate_init (fix_of payload_fix) 0;
                 buffer := Some [PInt 44; PInt 144; PInt 0; PInt 128; PInt 1; PInt 0] |}
              eq_refl) as [_ H].
  destruct (H eq_refl) as [Hl _]. exact Hl.
Defined.

(** ** Start-up: [Config] (lines 56-71) *)

(** [Config] is built exactly when a non-empty device identifier was given
    and, a subscribe topic missing or empty, the parser type is one of the
    two known names; otherwise the program exits with status 1.  Once built,
    the subscribe topic is never empty: the one given (kept as it is, with
    any parser type), or else the pattern of the parser type around the
    device identifier.  No other option is changed. *)
Theorem Config_init_spec (a : Args) :
  (forall c, Config_init a = Exit c -> c = 1) /\
  ((exists cfg, Config_init a = Started cfg) <->
   falsy (args_device_devui a) = false /\
   (falsy (args_mqtt_subscribe_topic a) = false \/
    args_parser_type a = "TheThingsStack_v3" \/ args_parser_type a = "ChirpStack_v3+")) /\
  (forall cfg,
     Config_init a = Started cfg ->
     args_publish cfg = args_publish a /\
     args_logging_level cfg = args_logging_level a /\
     args_parser_type cfg = args_parser_type a /\
     args_mqtt_server_ip cfg = args_mqtt_server_ip a /\
     args_mqtt_server_port cfg = args_mqtt_server_port a /\
     args_device_devui cfg = args_device_devui a /\
     falsy (args_mqtt_subscribe_topic cfg) = false /\
     (falsy (args_mqtt_subscribe_topic a) = false -> cfg = a) /\
     (falsy (args_mqtt_subscribe_topic a) = true ->
      (args_parser_type a = "TheThingsStack_v3" ->
       args_mqtt_subscribe_topic cfg
       = Some ("v3/+/devices/" ++ text (args_device_devui a) ++ "/up")) /\
      (args_parser_type a = "ChirpStack_v3+" ->
       args_mqtt_subscribe_topic cfg
       = Some ("application/+/device/" ++ text (args_device_devui a) ++ "/event/up")))).
Proof.

  unfold Config_init.
  destruct (falsy (args_device_devui a)) eqn:Hd.
  - split; [intros c [= <-]; reflexivity|].
    split; [split; [intros [r H]; discriminate H | intros [H _]; discriminate H]|].
    intros cfg H; discriminate H.
  - destruct (falsy (args_mqtt_subscribe_topic a)) eqn:Hs.
    + destruct (String.eqb (args_parser_type a) "TheThingsStack_v3") eqn:Ht;
        [apply String.eqb_eq in Ht | apply String.eqb_neq in Ht].
      * split; [intros c H; discriminate H|].
        split; [split; [intros _; split; [reflexivity | tauto] | intros _; eexists; reflexivity]|].
        intros cfg [= <-]. cbn.
        repeat (split; [reflexivity|]).
        split; [intros H; discriminate H|].
        intros _. split; [reflexivity|]. intros E. rewrite E in Ht. discriminate Ht.
      * destruct (String.eqb (args_parser_type a) "ChirpStack_v3+") eqn:Hc;
          [apply String.eqb_eq in Hc | apply String.eqb_neq in Hc].
        -- split; [intros c H; discriminate H|].
           split; [split; [intros _; split; [reflexivity | tauto] | intros _; eexists; reflexivity]|].
           intros cfg [= <-]. cbn.
           repeat (split; [reflexivity|]).
           split; [intros H; discriminate H|].
           intros _. split; [intros E; contradiction | reflexivity].
        -- split; [intros c [= <-]; reflexivity|].
           split; [split; [intros [r H]; discriminate H
                          | intros [_ [H | [H | H]]]; [discriminate H | contradiction | contradiction]]|].
           intros cfg H; discriminate H.
    + split; [intros c H; discriminate H|].
      split; [split; [intros _; split; [reflexivity | left; reflexivity] | intros _; eexists; reflexivity]|].
      intros cfg [= <-].
      repeat (split; [reflexivity|]).
      split; [exact Hs|]. split; [reflexivity | intros H; discriminate H].
Qed.

Lemma Config_init_spec_witness :
  exists cfg,
    Config_init {| args_publish := false; args_logging_level := inl 10;
                   args_parser_type := "TheThingsStack_v3";
                   args_mqtt_server_ip := "wes-rabbitmq";
                   args_mqtt_server_port := 1883;
                   args_mqtt_subscribe_topic := None;
                   args_device_devui := Some "eui-0011223344556677" |} = Started cfg /\
    args_mqtt_subscribe_topic cfg = Some "v3/+/devices/eui-0011223344556677/up".
Proof.
  eexists. split; [reflexivity|].
  destruct (Config_init_spec
              {| args_publish := false; args_logging_level := inl 10;
                 args_parser_type := "TheThingsStack_v3";
                 args_mqtt_server_ip := "wes-rabbitmq";
                 args_mqtt_server_port := 1883;
                 args_mqtt_subscribe_topic := None;
                 args_device_devui := Some "eui-0011223344556677" |})
    as (_ & _ & H).
  destruct (H _ eq_refl) as (_ & _ & _ & _ & _ & _ & _ & _ & T).
  destruct (T eq_refl) as [T1 _]. exact (T1 eq_refl).
Defined.


(** ** Gateway locations the aggregator cannot use (lines 185-190) *)

Lemma aggregate_loop_app {L : PyLib} (gps : GpsFix) (pre rest : list json) :
  forall a0,
    aggregate_loop gps a0 (pre ++ rest)
    = (a1 <- aggregate_loop gps a0 pre ;; aggregate_loop gps a1 rest).
Proof.
  induction pre as [|g pre IH]; intros a0; [reflexivity|].
  cbn [app aggregate_loop].
  destruct (aggregate_step gps a0 g) as [a1|e]; cbn [bind]; [apply IH | reflexivity].
Qed.

(** A gateway record whose [location] is present but is not an object (a
    JSON null, say) raises [AttributeError] when the device has a fix, and
    one whose latitude is neither a number nor null raises [TypeError]
    before any distance is computed; without a fix the location is never
    read and the same records are aggregated like any other. *)
Theorem gateway_location_errors {L : PyLib} (gps : GpsFix)
  (pre rest : list json) (d : list (string * json)) (v : json) :
  forallb plain_gateway pre = true ->
  rssi_int (JObj d) <> None ->
  lookup "location" d = Some v ->
  (has_gps gps = true -> is_object v = false ->
   aggregate gps (JArr (pre ++ JObj d :: rest)) = Raise AttributeError) /\
  (has_gps gps = true ->
   forall l lat lon pos,
     v = JObj l -> lookup "latitude" l = Some lat -> lookup "longitude" l = Some lon ->
     is_None lat = false -> is_None lon = false -> as_num lat = None ->
     position gps = Some pos ->
     aggregate gps (JArr (pre ++ JObj d :: rest)) = Raise TypeError) /\
  (has_gps gps = false -> forallb plain_gateway rest = true ->
   exists a, aggregate gps (JArr (pre ++ JObj d :: rest)) = Ok a /\
             min_distance a = 0 /\ max_distance a = 0).
Proof.
  intros Hpre Hr Hloc.
  unfold aggregate. cbn [py_iter bind].
  set (n := Z.of_nat (List.length (pre ++ JObj d :: rest))).
  destruct (aggregate_loop_plain gps pre Hpre (aggregate_init gps n) 200 (-200)
              eq_refl eq_refl) as (m & M & Hloop).
  rewrite aggregate_loop_app, Hloop. cbn [bind aggregate_loop].
  set (a1 := {| num_gateways := num_gateways (aggregate_init gps n);
                min_distance := min_distance (aggregate_init gps n);
                max_distance := max_distance (aggregate_init gps n);
                min_rssi := PInt m; max_rssi := PInt M |}).
  assert (R : exists n1 n2,
             num_of (match lookup "rssi" d with Some x => x | None => JInt MAX_RSSI end)
             = Ok n1 /\
             num_of (match lookup "rssi" d with Some x => x | None => JInt MIN_RSSI end)
             = Ok n2 /\
             exists m' M', py_min (PInt m) n1 = PInt m' /\ py_max (PInt M) n2 = PInt M').
  { cbn [rssi_int] in Hr. destruct (lookup "rssi" d) as [x|]; [destruct x; try congruence|];
      do 2 eexists; (split; [reflexivity|]); (split; [reflexivity|]);
      rewrite py_min_int, py_max_int; eauto. }
  destruct R as (n1 & n2 & Hn1 & Hn2 & m' & M' & Hm' & HM').
  assert (S : aggregate_step gps a1 (JObj d)
              = (if has_gps gps then
                   lat <- py_get v "latitude" JNull ;;
                   lon <- py_get v "longitude" JNull ;;
                   (if negb (is_None lat) && negb (is_None lon) then
                      match position gps with
                      | None => Raise TypeError
                      | Some pos =>
                          dd <- circleDistance pos lat lon ;;
                          distance <- py_int dd ;;
                          Ok {| num_gateways := num_gateways a1;
                                min_distance := Z.min (min_distance a1) distance;
                                max_distance := Z.max (max_distance a1) distance;
                                min_rssi := PInt m'; max_rssi := PInt M' |}
                      end
                    else Ok {| num_gateways := num_gateways a1;
                               min_distance := min_distance a1;
                               max_distance := max_distance a1;
                               min_rssi := PInt m'; max_rssi := PInt M' |})
                 else Ok {| num_gateways := num_gateways a1;
                            min_distance := min_distance a1;
                            max_distance := max_distance a1;
                            min_rssi := PInt m'; max_rssi := PInt M' |})).
  { unfold aggregate_step. cbn [py_get]. rewrite Hloc.
    destruct (lookup "rssi" d) as [x|]; cbn [bind].
    - rewrite Hn1 in Hn2 |- *. injection Hn2 as <-. cbn [bind].
      cbn [a1 min_rssi max_rssi]. rewrite Hm', HM'. reflexivity.
    - rewrite Hn1, Hn2. cbn [bind].
      cbn [a1 min_rssi max_rssi]. rewrite Hm', HM'. reflexivity. }
  rewrite S. split; [|split].
  - intros Hg Hv. rewrite Hg. destruct v; try reflexivity. discriminate Hv.
  - intros Hg l lat lon pos -> Hlat Hlon Nlat Nlon Hnum Hpos.
    rewrite Hg. cbn [py_get]. rewrite Hlat, Hlon. cbn [bind].
    rewrite Nlat, Nlon, Hpos. cbn [negb andb].
    unfold circleDistance, angularDistance, degreesToRadians at 1.
    cbn [py_float_of bind]. unfold num_of. rewrite Hnum. reflexivity.
  - intros Hg Hrest. rewrite Hg. cbn [bind].
    destruct (aggregate_loop_plain gps rest Hrest
                {| num_gateways := num_gateways a1;
                   min_distance := min_distance a1; max_distance := max_distance a1;
                   min_rssi := PInt m'; max_rssi := PInt M' |} m' M' eq_refl eq_refl)
      as (m2 & M2 & Hloop2).
    rewrite Hloop2. eexists. split; [reflexivity|].
    cbn [min_distance max_distance a1 aggregate_init]. rewrite Hg. split; reflexivity.
Qed.

Lemma gateway_location_errors_witness :
  aggregate (fix_of payload_fix)
    (JArr [JObj [("rssi", JInt (-80)); ("location", JNull)]])
  = Raise AttributeError.
Proof.
  destruct (gateway_location_errors (L := example_lib) (fix_of payload_fix) [] []
              [("rssi", JInt (-80)); ("location", JNull)] JNull
              eq_refl ltac:(discriminate) eq_refl) as (H & _).
  apply (H eq_refl eq_refl).
Defined.

(** ** What the encoded fields say about the aggregate (lines 208-231) *)

Lemma round_half_even_mono (d n m : Z) :
  0 < d -> n <= m -> round_half_even n d <= round_half_even m d.
Proof.
  intros Hd Hnm. destruct (Z.eq_dec n m) as [-> | Hne]; [lia|].
  destruct (round_half_even_nearest n d Hd) as [A _].
  destruct (round_half_even_nearest m d Hd) as [B _].
  set (r := round_half_even n d) in *. set (s := round_half_even m d) in *.
  destruct (Z_le_gt_dec r s) as [G | G]; [exact G | exfalso].
  assert (r * d >= s * d + d) by nia. lia.
Qed.

Lemma encode_port1_fields (hasFix : bool) (a : Aggregate) (seq : json)
  (buf : list pynum) :
  encode hasFix a (JInt 1) seq = Ok (Some buf) ->
  field buf 3 = (if hasFix then constrain (round_half_even (min_distance a) 250) 1 128
                 else 0) /\
  field buf 4 = (if hasFix then constrain (round_half_even (max_distance a) 250) 1 128
                 else 0).
Proof.
  intros H. apply encode_port1_inv in H.
  destruct H as (n & lo & hi & _ & _ & _ & ->). split; reflexivity.
Qed.

Lemma encode_port11_fields (hasFix : bool) (a : Aggregate) (seq : json)
  (buf : list pynum) :
  encode hasFix a (JInt 11) seq = Ok (Some buf) ->
  field16 buf 3 = (if hasFix then constrain (round_half_even (min_distance a) 10) 1 65535
                   else 0) /\
  field16 buf 5 = (if hasFix then constrain (round_half_even (max_distance a) 10) 1 65535
                   else 0).
Proof.
  intros H. apply encode_port11_inv in H.
  destruct H as (n & lo & hi & _ & _ & _ & Hb). cbv zeta in Hb. subst buf.
  unfold field16, field, round_div; cbn [nth_error].
  pose proof (constrain_bounds (round_half_even (min_distance a) 10) 1 65535 ltac:(lia)).
  pose proof (constrain_bounds (round_half_even (max_distance a) 10) 1 65535 ltac:(lia)).
  destruct hasFix; rewrite !hi_lo_join by lia; split; reflexivity.
Qed.

Lemma constrain_mono (v w lo hi : Z) : v <= w -> constrain v lo hi <= constrain w lo hi.
Proof. unfold constrain. lia. Qed.

(** With a fix, the encoded distances keep the order of the distances: a
    larger distance is never sent as a smaller field, across two buffers and
    between the minimum and the maximum of one. *)
Theorem encode_distance_monotone (a b : Aggregate) (seq seq' : json)
  (bufa bufb : list pynum) :
  (encode true a (JInt 1) seq = Ok (Some bufa) ->
   encode true b (JInt 1) seq' = Ok (Some bufb) ->
   (min_distance a <= min_distance b -> field bufa 3 <= field bufb 3) /\
   (max_distance a <= max_distance b -> field bufa 4 <= field bufb 4) /\
   (min_distance a <= max_distance a -> field bufa 3 <= field bufa 4)) /\
  (encode true a (JInt 11) seq = Ok (Some bufa) ->
   encode true b (JInt 11) seq' = Ok (Some bufb) ->
   (min_distance a <= min_distance b -> field16 bufa 3 <= field16 bufb 3) /\
   (max_distance a <= max_distance b -> field16 bufa 5 <= field16 bufb 5) /\
   (min_distance a <= max_distance a -> field16 bufa 3 <= field16 bufa 5)).
Proof.
  split; intros Ha Hb.
  - apply encode_port1_fields in Ha, Hb. destruct Ha as [-> ->], Hb as [-> ->].
    repeat split; intros H; apply constrain_mono, round_half_even_mono; lia.
  - apply encode_port11_fields in Ha, Hb. destruct Ha as [-> ->], Hb as [-> ->].
    repeat split; intros H; apply constrain_mono, round_half_even_mono; lia.
Qed.

Lemma encode_distance_monotone_witness :
  exists buf,
    encode true aggregate_300 (JInt 1) (JInt 300) = Ok (Some buf) /\
    field buf 3 <= field buf 4.
Proof.
  eexists. split; [reflexivity|].
  destruct (encode_distance_monotone aggregate_300 aggregate_300 (JInt 300) (JInt 300)
              [PInt 44; PInt 120; PInt 140; PInt 2; PInt 4; PInt 3]
              [PInt 44; PInt 120; PInt 140; PInt 2; PInt 4; PInt 3]) as [H _].
  destruct (H eq_refl eq_refl) as (_ & _ & M). apply M. cbn. lia.
Defined.

(** With a fix, each distance field (minimum and maximum alike) times its
    step gives its distance back to within half a step: 125 m on port 1 for
    distances of 125 m to 32,125 m, 5 m on port 11 for 5 m to 655,355 m.
    Below 375 m (15 m) the field is 1, and from 31,875 m (655,346 m) on it is
    128 (65535). *)
Theorem encode_distance_precision (a : Aggregate) (seq : json) (buf : list pynum) :
  (encode true a (JInt 1) seq = Ok (Some buf) ->
   forall d f,
     (d = min_distance a /\ f = field buf 3) \/
     (d = max_distance a /\ f = field buf 4) ->
     (125 <= d <= 32125 -> Z.abs (250 * f - d) <= 125) /\
     (d < 375 -> f = 1) /\
     (31875 <= d -> f = 128)) /\
  (encode true a (JInt 11) seq = Ok (Some buf) ->
   forall d f,
     (d = min_distance a /\ f = field16 buf 3) \/
     (d = max_distance a /\ f = field16 buf 5) ->
     (5 <= d <= 655355 -> Z.abs (10 * f - d) <= 5) /\
     (d < 15 -> f = 1) /\
     (655346 <= d -> f = 65535)).
Proof.
  split; intros H d f Hdf.
  - apply encode_port1_fields in H. destruct H as [Hmin Hmax].
    assert (F : f = constrain (round_half_even d 250) 1 128)
      by (destruct Hdf as [[-> ->] | [-> ->]]; assumption).
    subst f.
    destruct (round_half_even_nearest d 250 ltac:(lia)) as [A _].
    pose proof (round_half_even_mono 250 31875 d ltac:(lia)) as M.
    change (round_half_even 31875 250) with 128 in M.
    unfold constrain. repeat split; intros; lia.
  - apply encode_port11_fields in H. destruct H as [Hmin Hmax].
    assert (F : f = constrain (round_half_even d 10) 1 65535)
      by (destruct Hdf as [[-> ->] | [-> ->]]; assumption).
    subst f.
    destruct (round_half_even_nearest d 10 ltac:(lia)) as [A _].
    unfold constrain. repeat split; intros; lia.
Qed.

Lemma encode_distance_precision_witness :
  exists buf,
    encode true aggregate_300 (JInt 1) (JInt 300) = Ok (Some buf) /\
    Z.abs (250 * field buf 3 - 500) <= 125 /\
    Z.abs (250 * field buf 4 - 1000) <= 125.
Proof.
  eexists. split; [reflexivity|].
  destruct (encode_distance_precision aggregate_300 (JInt 300)
              [PInt 44; PInt 120; PInt 140; PInt 2; PInt 4; PInt 3]) as [H _].
  split.
  - destruct (H eq_refl 500 2 (or_introl (conj eq_refl eq_refl))) as (P & _).
    apply P. lia.
  - destruct (H eq_refl 1000 4 (or_intror (conj eq_refl eq_refl))) as (P & _).
    apply P. lia.
Defined.

(** The first three bytes and the last: the frame counter and the gateway
    count modulo 256, and each signal bound shifted by 200, so that a bound
    of -200 to 55 is read back by subtracting 200. *)
Theorem encode_signal_fields (hasFix : bool) (a : Aggregate) (port s lo hi : Z)
  (buf : list pynum) :
  port = 1 \/ port = 11 ->
  min_rssi a = PInt lo -> max_rssi a = PInt hi ->
  encode hasFix a (JInt port) (JInt s) = Ok (Some buf) ->
  field buf 0 = s mod 256 /\
  field buf 1 = (lo + 200) mod 256 /\
  field buf 2 = (hi + 200) mod 256 /\
  field buf (if (port =? 1)%Z then 5%nat else 7%nat) = num_gateways a mod 256 /\
  (-200 <= lo <= 55 -> field buf 1 - 200 = lo) /\
  (-200 <= hi <= 55 -> field buf 2 - 200 = hi) /\
  (0 <= num_gateways a <= 255 ->
   field buf (if (port =? 1)%Z then 5%nat else 7%nat) = num_gateways a).
Proof.
  intros Hp Hlo Hhi H.
  assert (F : field buf 0 = s mod 256 /\ field buf 1 = (lo + 200) mod 256 /\
              field buf 2 = (hi + 200) mod 256 /\
              field buf (if (port =? 1)%Z then 5%nat else 7%nat) = num_gateways a mod 256).
  { destruct Hp as [-> | ->];
      [apply encode_port1_inv in H | apply encode_port11_inv in H];
      destruct H as (n & l & h & Hn & Hl & Hh & Hb); cbv zeta in Hb; subst buf;
      injection Hn as <-; rewrite Hlo in Hl; rewrite Hhi in Hh;
      cbn [rssi_byte py_add_int py_int_of bind] in Hl, Hh;
      injection Hl as <-; injection Hh as <-; repeat split. }
  destruct F as (F0 & F1 & F2 & F3).
  repeat split; try assumption; intros B.
  - rewrite F1, Z.mod_small by lia. lia.
  - rewrite F2, Z.mod_small by lia. lia.
  - rewrite F3, Z.mod_small by lia. reflexivity.
Qed.

Lemma encode_signal_fields_witness :
  exists buf,
    encode true aggregate_300 (JInt 1) (JInt 300) = Ok (Some buf) /\
    field buf 0 = 44 /\ field buf 1 - 200 = -80 /\ field buf 2 - 200 = -60.
Proof.
  eexists. split; [reflexivity|].
  destruct (encode_signal_fields true aggregate_300 1 300 (-80) (-60)
              [PInt 44; PInt 120; PInt 140; PInt 2; PInt 4; PInt 3]
              (or_introl eq_refl) eq_refl eq_refl eq_refl)
    as (F0 & _ & _ & _ & L & H & _).
  split; [exact F0|]. split; [apply L; lia | apply H; lia].
Defined.
